(** * I3C timing utility (stm32h5xx_util_i3c.c): model and properties

    The utility computes the SCL/SDA timing register fields of the I3C
    peripheral from the kernel clock and the requested bus clocks.  All of its
    arithmetic is unsigned 32-bit C arithmetic (the clock periods are obtained
    through one 64-bit division); the model below keeps every operation with
    its wrap-around written out over [Z]. *)

From Stdlib Require Import ZArith Lia Bool.

Local Open Scope Z_scope.
Local Open Scope bool_scope.

(** ** Machine integers *)

Definition u8 (z : Z) : Z := z mod 2 ^ 8.
Definition u32 (z : Z) : Z := z mod 2 ^ 32.
Definition u64 (z : Z) : Z := z mod 2 ^ 64.

Definition is_uint32 (z : Z) : Prop := 0 <= z < 2 ^ 32.

Definition add32 (a b : Z) : Z := u32 (a + b).
Definition sub32 (a b : Z) : Z := u32 (a - b).
Definition mul32 (a b : Z) : Z := u32 (a * b).

(** ** Types of the interface *)

Inductive ErrorStatus : Set := SUCCESS | ERROR.

(** [busType] is a [uint32_t] that the interface documents as "one value of
    I3C_BUS_TYPE"; the two macros of that group are the constructors. *)
Inductive I3C_BUS_TYPE : Set := I3C_PURE_I3C_BUS | I3C_MIXED_BUS.

(** The members of the controller record that the utility writes. *)
Record LL_I3C_CtrlBusConfTypeDef : Set := mkCtrlBusConf {
  SDAHoldTime : Z;
  SCLPPLowDuration : Z;
  SCLI3CHighDuration : Z;
  SCLODLowDuration : Z;
  SCLI2CHighDuration : Z;
  BusFreeDuration : Z;
  BusIdleDuration : Z
}.

Record LL_I3C_TgtBusConfTypeDef : Set := mkTgtBusConf {
  BusAvailableDuration : Z
}.

(** The "compute variables" of the controller function. *)
Record ctrl_locals : Set := mkLocals {
  sclhi3c : Z;
  scllpp : Z;
  scllod : Z;
  sclhi2c : Z;
  free : Z;
  oneus : Z;
  sdahold : Z
}.

Definition is_success (s : ErrorStatus) : bool :=
  match s with SUCCESS => true | ERROR => false end.

Definition is_pure (b : I3C_BUS_TYPE) : bool :=
  match b with I3C_PURE_I3C_BUS => true | I3C_MIXED_BUS => false end.

Definition is_mixed (b : I3C_BUS_TYPE) : bool :=
  match b with I3C_PURE_I3C_BUS => false | I3C_MIXED_BUS => true end.

(** ** Private constants *)

Definition SEC210PSEC : Z := 100000000000.
Definition TI3CH_MIN : Z := 3200.
Definition TI3CH_OD_MAX : Z := 4100.
Definition TI3CL_OD_MIN : Z := 20000.
Definition TFMPL_OD_MIN : Z := 50000.
Definition TFML_OD_MIN : Z := 130000.
Definition TFM_MIN : Z := 250000.
Definition TSM_MIN : Z := 1000000.
Definition TI3C_CAS_MIN : Z := 3840.
Definition TCAPA : Z := 35000.

(** ** Reading the specification

    The specification's rounding: "round-half-up on the integer division (add
    half the divisor before truncating)", over unbounded integers. *)
Definition round_half_up (x d : Z) : Z := (x + d / 2) / d.

(** Wrap-free readings of the push-pull computation on a pure bus.  [H] and
    [L] stand for the high and low cycle counts plus one, the numbers of
    clock cycles the two phases last. *)
Definition min_high (T : Z) : Z :=
  let y := round_half_up TI3CH_MIN T in
  if y * T <? TI3CH_MIN then y + 1 else y.

Definition duty_share (pp share T : Z) : Z :=
  round_half_up (round_half_up (pp * share) T) 100.

Definition adjusted_low (T pp H L : Z) : Z :=
  let bound := pp - H * T + T / 2 + 1 in
  let L1 := if bound <=? L * T then L - 1 else L in
  if (L1 + H) * T <? bound then L1 + 1 else L1.

(** A record to start from, and two division-by-zero conventions used when a
    statement is evaluated: a zero quotient, and the all-ones quotient. *)
Definition blank_ctrl : LL_I3C_CtrlBusConfTypeDef :=
  mkCtrlBusConf 0 0 0 0 0 0 0.
Definition div0_zero : Z -> Z := fun _ => 0.
Definition div0_ones : Z -> Z := fun _ => 2 ^ 64 - 1.

Section Util_I3C.

(** C leaves a division by zero undefined, and the function does divide by
    [i2cFreq] on a pure bus (line 142), where the parameter check lets a
    zero I2C clock through.  The arithmetic below is written for the runs
    that get past their divisions: [udiv0 x] stands for the quotient such a
    run would see for the dividend [x] and a zero divisor, and nothing is
    assumed about it.  [divides_by_zero] says which runs reach a zero
    divisor, and [I3C_CtrlTimingComputation_run] gives those no result. *)
Variable udiv0 : Z -> Z.

(** Bit position of the SDA_HD flag in TIMINGR1 (device header, not part of
    this file). *)
Variable I3C_TIMINGR1_SDA_HD_Pos : Z.

Definition udiv (x d : Z) : Z := if d =? 0 then udiv0 x else x / d.

Definition div32 (x d : Z) : Z := u32 (udiv x d).
Definition div64 (x d : Z) : Z := u64 (udiv x d).

(** [#define DIV_ROUND_CLOSEST(x, d) (((x) + ((d) / 2U)) / (d))] on
    [uint32_t] operands. *)
Definition DIV_ROUND_CLOSEST (x d : Z) : Z := div32 (add32 x (div32 d 2)) d.

(** The period, in units of 10 ps, of a frequency in Hz:
    [(uint32_t)((SEC210PSEC + ((uint64_t)f / (uint64_t)2)) / (uint64_t)f)],
    the expression of lines 128, 139, 142 and 350. *)
Definition period_10ps (f : Z) : Z :=
  u32 (div64 (u64 (SEC210PSEC + div64 f 2)) f).

(** Lines 115-123: parameter verification. *)
Definition verify_parameters (clockSrcFreq i3cFreq i2cFreq : Z)
    (busType : I3C_BUS_TYPE) : ErrorStatus :=
  let status := SUCCESS in
  let status :=
    if ((clockSrcFreq =? 0) || (i3cFreq =? 0)) && is_pure busType
    then ERROR else status in
  let status :=
    if ((clockSrcFreq =? 0) || (i3cFreq =? 0) || (i2cFreq =? 0))
       && is_mixed busType
    then ERROR else status in
  status.

(** Lines 154-206: SCL high level and push-pull low level. *)
Definition scl_high_low (ti3cclk ti3c_pp_min dutyCycle : Z)
    (busType : I3C_BUS_TYPE) : Z * Z :=
  match busType with
  | I3C_PURE_I3C_BUS =>
      let sclhi3c :=
        sub32 (DIV_ROUND_CLOSEST
                 (DIV_ROUND_CLOSEST (mul32 ti3c_pp_min dutyCycle) ti3cclk) 100)
              1 in
      if mul32 (add32 sclhi3c 1) ti3cclk <? TI3CH_MIN then
        let sclhi3c := sub32 (DIV_ROUND_CLOSEST TI3CH_MIN ti3cclk) 1 in
        let sclhi3c :=
          if mul32 (add32 sclhi3c 1) ti3cclk <? TI3CH_MIN
          then add32 sclhi3c 1 else sclhi3c in
        let scllpp :=
          sub32 (sub32 (DIV_ROUND_CLOSEST ti3c_pp_min ti3cclk)
                       (add32 sclhi3c 1)) 1 in
        (sclhi3c, scllpp)
      else
        let sclhi3c :=
          sub32 (DIV_ROUND_CLOSEST
                   (DIV_ROUND_CLOSEST (mul32 ti3c_pp_min dutyCycle) ti3cclk)
                   100) 1 in
        let sclhi3c :=
          if mul32 (add32 sclhi3c 1) ti3cclk <? TI3CH_MIN
          then add32 sclhi3c 1 else sclhi3c in
        let scllpp :=
          sub32 (DIV_ROUND_CLOSEST
                   (DIV_ROUND_CLOSEST
                      (mul32 ti3c_pp_min (sub32 100 dutyCycle)) ti3cclk) 100)
                1 in
        (sclhi3c, scllpp)
  | I3C_MIXED_BUS =>
      let sclhi3c := sub32 (DIV_ROUND_CLOSEST TI3CH_OD_MAX ti3cclk) 1 in
      let sclhi3c :=
        if mul32 (add32 sclhi3c 1) ti3cclk <? TI3CH_MIN then add32 sclhi3c 1
        else if TI3CH_OD_MAX <? mul32 (add32 sclhi3c 1) ti3cclk
             then div32 TI3CH_OD_MAX ti3cclk
             else sclhi3c in
      let scllpp :=
        sub32 (DIV_ROUND_CLOSEST
                 (sub32 ti3c_pp_min (mul32 (add32 sclhi3c 1) ti3cclk))
                 ti3cclk) 1 in
      (sclhi3c, scllpp)
  end.

(** Lines 208-221: the two adjustments of [scllpp] around the ideal low
    duration. *)
Definition scllpp_adjust (ti3cclk ti3c_pp_min sclhi3c scllpp : Z) : Z :=
  let ideal_scllpp :=
    sub32 ti3c_pp_min (mul32 (add32 sclhi3c 1) ti3cclk) in
  let scllpp :=
    if add32 (add32 ideal_scllpp (div32 ti3cclk 2)) 1
         <=? mul32 (add32 scllpp 1) ti3cclk
    then sub32 scllpp 1 else scllpp in
  let scllpp :=
    if mul32 (add32 (add32 (add32 scllpp sclhi3c) 1) 1) ti3cclk
         <? add32 (add32 ideal_scllpp (div32 ti3cclk 2)) 1
    then add32 scllpp 1 else scllpp in
  scllpp.

(** Lines 223-272: open-drain low level and I2C high level. *)
Definition scl_od (ti3cclk ti3c_pp_min ti2c_od_min dutyCycle scllpp : Z)
    (busType : I3C_BUS_TYPE) : Z * Z :=
  match busType with
  | I3C_PURE_I3C_BUS =>
      let scllod :=
        if ti3c_pp_min <? TI3CL_OD_MIN then
          let scllod := sub32 (DIV_ROUND_CLOSEST TI3CL_OD_MIN ti3cclk) 1 in
          if mul32 (add32 scllod 1) ti3cclk <? TI3CL_OD_MIN
          then add32 scllod 1 else scllod
        else scllpp in
      let scllod :=
        if mul32 (add32 scllod 1) ti3cclk <? TCAPA
        then add32 (DIV_ROUND_CLOSEST TCAPA ti3cclk) 1 else scllod in
      (scllod, 0)
  | I3C_MIXED_BUS =>
      let scllod :=
        sub32 (DIV_ROUND_CLOSEST
                 (DIV_ROUND_CLOSEST
                    (mul32 ti2c_od_min (sub32 100 dutyCycle)) ti3cclk) 100)
              1 in
      let scllod :=
        if ti2c_od_min <? TFM_MIN then
          if mul32 (add32 scllod 1) ti3cclk <? TFMPL_OD_MIN
          then sub32 (DIV_ROUND_CLOSEST TFMPL_OD_MIN ti3cclk) 1 else scllod
        else
          if mul32 (add32 scllod 1) ti3cclk <? TFML_OD_MIN
          then sub32 (DIV_ROUND_CLOSEST TFML_OD_MIN ti3cclk) 1 else scllod in
      let sclhi2c :=
        sub32 (DIV_ROUND_CLOSEST
                 (sub32 ti2c_od_min (mul32 (add32 scllod 1) ti3cclk))
                 ti3cclk) 1 in
      (scllod, sclhi2c)
  end.

(** Lines 274-285: clock after start. *)
Definition bus_free (ti3cclk scllod : Z) (busType : I3C_BUS_TYPE) : Z :=
  match busType with
  | I3C_PURE_I3C_BUS =>
      add32 (DIV_ROUND_CLOSEST (add32 TI3C_CAS_MIN TCAPA) (mul32 2 ti3cclk)) 1
  | I3C_MIXED_BUS =>
      DIV_ROUND_CLOSEST (add32 (mul32 (add32 scllod 1) ti3cclk) TCAPA)
                        (mul32 2 ti3cclk)
  end.

(** Lines 287-296: one cycle hold time addition. *)
Definition sda_hold (ti3cclk : Z) : Z := if 600 <? ti3cclk then 0 else 1.

(** Lines 299 and 362: one microsecond reference. *)
Definition one_us (ti3cclk : Z) : Z :=
  sub32 (DIV_ROUND_CLOSEST 100000 ti3cclk) 2.

(** Lines 153-299 as a whole: every compute variable from the three
    periods. *)
Definition scl_computation (ti3cclk ti3c_pp_min ti2c_od_min dutyCycle : Z)
    (busType : I3C_BUS_TYPE) : ctrl_locals :=
  let '(sclhi3c, scllpp) :=
    scl_high_low ti3cclk ti3c_pp_min dutyCycle busType in
  let scllpp := scllpp_adjust ti3cclk ti3c_pp_min sclhi3c scllpp in
  let '(scllod, sclhi2c) :=
    scl_od ti3cclk ti3c_pp_min ti2c_od_min dutyCycle scllpp busType in
  let free := bus_free ti3cclk scllod busType in
  let sdahold := sda_hold ti3cclk in
  let oneus := one_us ti3cclk in
  mkLocals sclhi3c scllpp scllod sclhi2c free oneus sdahold.

(** Lines 301-302: the 8-bit range test. *)
Definition over_8bits (l : ctrl_locals) : bool :=
  (0xFF <? scllpp l) || (0xFF <? sclhi3c l) || (0xFF <? scllod l)
  || (0xFF <? sclhi2c l) || (0xFF <? free l) || (0xFF <? oneus l).

(** Lines 310-319: the stores into [*pConfig]. *)
Definition store_config (l : ctrl_locals) : LL_I3C_CtrlBusConfTypeDef :=
  {| SCLPPLowDuration := u8 (scllpp l);
     SCLI3CHighDuration := u8 (sclhi3c l);
     SCLODLowDuration := u8 (scllod l);
     SCLI2CHighDuration := u8 (sclhi2c l);
     BusFreeDuration := u8 (free l);
     BusIdleDuration := u8 (oneus l);
     SDAHoldTime := u32 (Z.shiftl (sdahold l) I3C_TIMINGR1_SDA_HD_Pos) |}.

(** [I3C_CtrlTimingComputation]: the record behind [pConfig] is passed in and
    returned with the status, so that an unwritten record is the one that was
    passed. *)
Definition I3C_CtrlTimingComputation (pConfig : LL_I3C_CtrlBusConfTypeDef)
    (clockSrcFreq i3cFreq i2cFreq dutyCycle : Z) (busType : I3C_BUS_TYPE)
    : ErrorStatus * LL_I3C_CtrlBusConfTypeDef :=
  let status := verify_parameters clockSrcFreq i3cFreq i2cFreq busType in
  let ti3cclk := 0 in
  let ti3c_pp_min := 0 in
  let ti2c_od_min := 0 in
  let '(status, ti3cclk) :=
    if is_success status then
      let ti3cclk := period_10ps clockSrcFreq in
      if (50 <? dutyCycle) || (ti3cclk =? 0)
      then (ERROR, ti3cclk) else (status, ti3cclk)
    else (status, ti3cclk) in
  let '(status, ti3c_pp_min, ti2c_od_min) :=
    if is_success status && negb (ti3cclk =? 0) then
      let ti3c_pp_min := period_10ps i3cFreq in
      let ti2c_od_min := period_10ps i2cFreq in
      if negb (is_pure busType) && (TSM_MIN <? ti2c_od_min)
      then (ERROR, ti3c_pp_min, ti2c_od_min)
      else (status, ti3c_pp_min, ti2c_od_min)
    else (status, ti3c_pp_min, ti2c_od_min) in
  if is_success status && negb (ti3cclk =? 0) then
    let l :=
      scl_computation ti3cclk ti3c_pp_min ti2c_od_min dutyCycle busType in
    if over_8bits l then (ERROR, pConfig) else (status, store_config l)
  else (status, pConfig).

(** [I3C_TgtTimingComputation], in the same style. *)
Definition I3C_TgtTimingComputation (pConfig : LL_I3C_TgtBusConfTypeDef)
    (clockSrcFreq : Z) : ErrorStatus * LL_I3C_TgtBusConfTypeDef :=
  let status := SUCCESS in
  let ti3cclk := 0 in
  let status := if clockSrcFreq =? 0 then ERROR else status in
  let '(status, ti3cclk) :=
    if is_success status then
      let ti3cclk := period_10ps clockSrcFreq in
      if ti3cclk =? 0 then (ERROR, ti3cclk) else (status, ti3cclk)
    else (status, ti3cclk) in
  if is_success status && negb (ti3cclk =? 0) then
    let oneus := one_us ti3cclk in
    (status, {| BusAvailableDuration := u8 oneus |})
  else (status, pConfig).

(** Whether a run of the controller function reaches a division whose
    divisor is zero.  The divisions are, in order: by [clockSrcFreq]
    (line 128, under the first status test), by [i3cFreq] and [i2cFreq]
    (lines 139 and 142, under the second), and, in the SCL computation under
    the third, by [ti3cclk] (known nonzero there), by 100 and by
    [2U * ti3cclk] (lines 279 and 284). *)
Definition divides_by_zero (clockSrcFreq i3cFreq i2cFreq dutyCycle : Z)
    (busType : I3C_BUS_TYPE) : bool :=
  if is_success (verify_parameters clockSrcFreq i3cFreq i2cFreq busType) then
    (clockSrcFreq =? 0)
    || (let ti3cclk := period_10ps clockSrcFreq in
        if (50 <? dutyCycle) || (ti3cclk =? 0) then false
        else
          (i3cFreq =? 0) || (i2cFreq =? 0)
          || (let ti2c_od_min := period_10ps i2cFreq in
              if negb (is_pure busType) && (TSM_MIN <? ti2c_od_min)
              then false
              else mul32 2 ti3cclk =? 0))
  else false.

(** The controller function as C defines it: no result for a run that
    divides by zero, the computed status and record otherwise. *)
Definition I3C_CtrlTimingComputation_run
    (pConfig : LL_I3C_CtrlBusConfTypeDef)
    (clockSrcFreq i3cFreq i2cFreq dutyCycle : Z) (busType : I3C_BUS_TYPE)
    : option (ErrorStatus * LL_I3C_CtrlBusConfTypeDef) :=
  if divides_by_zero clockSrcFreq i3cFreq i2cFreq dutyCycle busType
  then None
  else Some (I3C_CtrlTimingComputation pConfig clockSrcFreq i3cFreq i2cFreq
               dutyCycle busType).

(** Short names for the statements below. *)
Local Abbreviation period := period_10ps.
Local Abbreviation DRC := DIV_ROUND_CLOSEST.
Local Abbreviation locals_of clk i3c i2c duty bus :=
  (scl_computation (period clk) (period i3c) (period i2c) duty bus).

(** ** Machine-integer facts *)

Lemma u32_range z : 0 <= u32 z < 2 ^ 32.
Proof. unfold u32. apply Z.mod_pos_bound. lia. Qed.

Lemma u32_small z : 0 <= z < 2 ^ 32 -> u32 z = z.
Proof. intros H. unfold u32. now apply Z.mod_small. Qed.

Lemma u64_small z : 0 <= z < 2 ^ 64 -> u64 z = z.
Proof. intros H. unfold u64. now apply Z.mod_small. Qed.

Lemma u8_small z : 0 <= z < 2 ^ 8 -> u8 z = z.
Proof. intros H. unfold u8. now apply Z.mod_small. Qed.

Lemma u32_below z : z < 0 -> - 2 ^ 32 <= z -> u32 z = z + 2 ^ 32.
Proof.
  intros Hn Hl. unfold u32.
  symmetry. apply (Z.mod_unique z (2 ^ 32) (-1) (z + 2 ^ 32)); lia.
Qed.

Lemma sub32_small a b : 0 <= a - b < 2 ^ 32 -> sub32 a b = a - b.
Proof. apply u32_small. Qed.

Lemma add32_small a b : 0 <= a + b < 2 ^ 32 -> add32 a b = a + b.
Proof. apply u32_small. Qed.

Lemma mul32_small a b : 0 <= a * b < 2 ^ 32 -> mul32 a b = a * b.
Proof. apply u32_small. Qed.

(** [x - 1 + 1] comes back to [x] whatever the wrap in between. *)
Lemma add32_sub32_1 x : add32 (sub32 x 1) 1 = u32 x.
Proof.
  unfold add32, sub32, u32.
  rewrite Zplus_mod_idemp_l. f_equal. lia.
Qed.

Lemma add32_u32_l a b : add32 (u32 a) b = u32 (a + b).
Proof. unfold add32, u32. apply Zplus_mod_idemp_l. Qed.

Lemma add32_u32_r a b : add32 a (u32 b) = u32 (a + b).
Proof. unfold add32, u32. apply Zplus_mod_idemp_r. Qed.

Lemma sub32_u32_l a b : sub32 (u32 a) b = u32 (a - b).
Proof. unfold sub32, u32. apply Zminus_mod_idemp_l. Qed.

Lemma sub32_u32_r a b : sub32 a (u32 b) = u32 (a - b).
Proof. unfold sub32, u32. apply Zminus_mod_idemp_r. Qed.

Lemma u32_u32 a : u32 (u32 a) = u32 a.
Proof. unfold u32. apply Z.mod_mod. lia. Qed.

Lemma u32_sum3 a b c d : u32 (u32 a + b + c + d) = u32 (a + b + c + d).
Proof.
  unfold u32. replace (a mod 2 ^ 32 + b + c + d)
    with (a mod 2 ^ 32 + (b + c + d)) by ring.
  rewrite Zplus_mod_idemp_l. f_equal. ring.
Qed.

Create Rewrite HintDb wrap32.
#[local] Hint Rewrite add32_u32_l add32_u32_r sub32_u32_l sub32_u32_r u32_u32
  u32_sum3 : wrap32.

Lemma sub32_sub32 a b c : sub32 (sub32 a b) c = u32 (a - b - c).
Proof. unfold sub32 at 2. apply sub32_u32_l. Qed.

Lemma bound32 a b c : add32 (add32 (sub32 a b) c) 1 = u32 (a - b + c + 1).
Proof. unfold sub32. now autorewrite with wrap32. Qed.

(** A wrapped negative number fails any small upper bound. *)
Lemma u32_le_small z b :
  0 <= b -> - 2 ^ 32 + b < z -> z < 2 ^ 32 -> u32 z <= b ->
  0 <= z /\ u32 z = z.
Proof.
  intros Hb Hl Hu Hle. destruct (Z_lt_le_dec z 0) as [Hn | Hp].
  - rewrite u32_below in Hle by lia. lia.
  - split; [assumption | apply u32_small; lia].
Qed.

(** Quotient and remainder as two inequalities, the form the arithmetic
    below uses. *)
Lemma div_bounds x d : 0 < d -> d * (x / d) <= x < d * (x / d) + d.
Proof.
  intros Hd. pose proof (Z.div_mod x d) as E.
  pose proof (Z.mod_pos_bound x d Hd). lia.
Qed.

Lemma half_bounds d : 2 * (d / 2) <= d <= 2 * (d / 2) + 1.
Proof. pose proof (div_bounds d 2). lia. Qed.

(** ** Division without wrap-around *)

Lemma udiv_nonzero x d : d <> 0 -> udiv x d = x / d.
Proof. intros H. unfold udiv. now apply Z.eqb_neq in H as ->. Qed.

Lemma div32_exact x d : 0 < d -> 0 <= x < 2 ^ 32 -> div32 x d = x / d.
Proof.
  intros Hd Hx. unfold div32. rewrite udiv_nonzero by lia.
  apply u32_small. split.
  - apply Z.div_pos; lia.
  - apply Z.le_lt_trans with x; [apply Z.div_le_upper_bound; nia | lia].
Qed.

Lemma DRC_exact x d :
  0 < d < 2 ^ 32 -> 0 <= x -> x + d / 2 < 2 ^ 32 ->
  DRC x d = round_half_up x d.
Proof.
  intros Hd Hx Hs. unfold DIV_ROUND_CLOSEST, round_half_up.
  pose proof (half_bounds d).
  rewrite (div32_exact d 2) by lia.
  rewrite add32_small by lia.
  apply div32_exact; lia.
Qed.

Lemma round_half_up_bounds x d :
  0 < d ->
  d * round_half_up x d <= x + d / 2 < d * round_half_up x d + d.
Proof. intros Hd. unfold round_half_up. now apply div_bounds. Qed.

Lemma round_half_up_nonneg x d : 0 < d -> 0 <= x -> 0 <= round_half_up x d.
Proof.
  intros Hd Hx. unfold round_half_up. pose proof (half_bounds d).
  apply Z.div_pos; lia.
Qed.

(** ** The clock period *)

Lemma period_range f : is_uint32 (period f).
Proof. unfold period_10ps. apply u32_range. Qed.

Lemma period_quotient f :
  0 < f < 2 ^ 32 -> period f = u32 (round_half_up SEC210PSEC f).
Proof.
  intros Hf. unfold period_10ps, div64, round_half_up, SEC210PSEC.
  pose proof (half_bounds f).
  rewrite !udiv_nonzero by lia.
  rewrite (u64_small (f / 2)) by lia.
  rewrite (u64_small (100000000000 + f / 2)) by lia.
  rewrite u64_small; [reflexivity|].
  split.
  - apply Z.div_pos; lia.
  - apply Z.le_lt_trans with (100000000000 + f / 2);
      [apply Z.div_le_upper_bound; nia | lia].
Qed.

Lemma round_period_fits f :
  24 <= f < 2 ^ 32 -> 23 <= round_half_up SEC210PSEC f < 2 ^ 32.
Proof.
  intros Hf. unfold round_half_up, SEC210PSEC.
  pose proof (half_bounds f). split.
  - apply Z.div_le_lower_bound; lia.
  - apply Z.div_lt_upper_bound; lia.
Qed.

Lemma period_exact f :
  24 <= f < 2 ^ 32 -> period f = round_half_up SEC210PSEC f.
Proof.
  intros Hf. rewrite period_quotient by lia.
  apply u32_small. pose proof (round_period_fits f Hf). lia.
Qed.

Lemma period_low f : 0 < f < 24 -> 52858791 <= period f.
Proof.
  intros Hf. rewrite period_quotient by lia.
  assert (f = 1 \/ f = 2 \/ f = 3 \/ f = 4 \/ f = 5 \/ f = 6 \/ f = 7 \/ f = 8
          \/ f = 9 \/ f = 10 \/ f = 11 \/ f = 12 \/ f = 13 \/ f = 14 \/ f = 15
          \/ f = 16 \/ f = 17 \/ f = 18 \/ f = 19 \/ f = 20 \/ f = 21
          \/ f = 22 \/ f = 23) as C by lia.
  repeat (destruct C as [-> | C]; [vm_compute; discriminate|]).
  subst f. vm_compute. discriminate.
Qed.

Lemma period_at_least_23 f : 0 < f < 2 ^ 32 -> 23 <= period f.
Proof.
  intros Hf. destruct (Z_lt_le_dec f 24) as [Hs | Hl].
  - pose proof (period_low f). lia.
  - rewrite period_exact by lia. apply round_period_fits. lia.
Qed.

(** The bound 23 is reached by the fastest 32-bit clock. *)
Example period_of_fastest_clock : period (2 ^ 32 - 1) = 23.
Proof. vm_compute. reflexivity. Qed.

(** ** The controller function, case by case *)

Ltac status_step :=
  cbv beta iota zeta delta [is_success orb andb negb].

Lemma ctrl_cases pConfig clk i3c i2c duty bus :
  I3C_CtrlTimingComputation pConfig clk i3c i2c duty bus =
  if is_success (verify_parameters clk i3c i2c bus)
     && negb (50 <? duty) && negb (period clk =? 0)
     && negb (negb (is_pure bus) && (TSM_MIN <? period i2c))
     && negb (over_8bits (locals_of clk i3c i2c duty bus))
  then (SUCCESS, store_config
                   (locals_of clk i3c i2c duty bus))
  else (ERROR, pConfig).
Proof.
  unfold I3C_CtrlTimingComputation.
  destruct (verify_parameters clk i3c i2c bus); status_step;
    [|reflexivity].
  destruct (50 <? duty); status_step; [reflexivity|].
  destruct (period clk =? 0) eqn:ET; status_step; rewrite ?ET; status_step;
    [reflexivity|].
  destruct bus; cbv beta iota zeta delta [is_pure]; status_step;
    rewrite ?ET.
  - destruct (over_8bits (locals_of clk i3c i2c duty I3C_PURE_I3C_BUS));
      reflexivity.
  - destruct (TSM_MIN <? period i2c); status_step; rewrite ?ET;
      [reflexivity|].
    destruct (over_8bits (locals_of clk i3c i2c duty I3C_MIXED_BUS));
      reflexivity.
Qed.

Lemma ctrl_success pConfig clk i3c i2c duty bus cfg :
  I3C_CtrlTimingComputation pConfig clk i3c i2c duty bus = (SUCCESS, cfg) ->
  verify_parameters clk i3c i2c bus = SUCCESS
  /\ duty <= 50 /\ period clk <> 0
  /\ over_8bits (locals_of clk i3c i2c duty bus) = false
  /\ cfg = store_config
             (locals_of clk i3c i2c duty bus).
Proof.
  rewrite ctrl_cases.
  destruct (verify_parameters clk i3c i2c bus); cbn [is_success andb];
    [|discriminate].
  destruct (Z.ltb_spec 50 duty); cbn [negb andb]; [discriminate|].
  destruct (Z.eqb_spec (period clk) 0); cbn [negb andb]; [discriminate|].
  destruct (negb (is_pure bus) && (TSM_MIN <? period i2c));
    cbn [negb andb]; [discriminate|].
  destruct (over_8bits (locals_of clk i3c i2c duty bus)); cbn [negb];
    [discriminate|].
  intros [= <-]. auto.
Qed.

Lemma ctrl_status pConfig clk i3c i2c duty bus :
  fst (I3C_CtrlTimingComputation pConfig clk i3c i2c duty bus) = ERROR
  /\ snd (I3C_CtrlTimingComputation pConfig clk i3c i2c duty bus) = pConfig
  \/ I3C_CtrlTimingComputation pConfig clk i3c i2c duty bus =
     (SUCCESS, store_config
                 (locals_of clk i3c i2c duty bus)).
Proof.
  rewrite ctrl_cases. destruct (_ && _); [right | left]; auto.
Qed.

(** ** The compute variables *)

Lemma locals_oneus T pp od duty bus :
  oneus (scl_computation T pp od duty bus) = one_us T.
Proof.
  unfold scl_computation.
  destruct (scl_high_low T pp duty bus) as [h l].
  destruct (scl_od T pp od duty _ bus); reflexivity.
Qed.

Lemma locals_sdahold T pp od duty bus :
  sdahold (scl_computation T pp od duty bus) = sda_hold T.
Proof.
  unfold scl_computation.
  destruct (scl_high_low T pp duty bus) as [h l].
  destruct (scl_od T pp od duty _ bus); reflexivity.
Qed.

Lemma locals_high_low T pp od duty bus :
  sclhi3c (scl_computation T pp od duty bus)
    = fst (scl_high_low T pp duty bus)
  /\ scllpp (scl_computation T pp od duty bus)
    = scllpp_adjust T pp (fst (scl_high_low T pp duty bus))
        (snd (scl_high_low T pp duty bus)).
Proof.
  unfold scl_computation.
  destruct (scl_high_low T pp duty bus) as [h l].
  destruct (scl_od T pp od duty _ bus); split; reflexivity.
Qed.

(** What the range test leaves when it passes. *)
Lemma over_8bits_false l :
  over_8bits l = false ->
  scllpp l <= 255 /\ sclhi3c l <= 255 /\ scllod l <= 255
  /\ sclhi2c l <= 255 /\ free l <= 255 /\ oneus l <= 255.
Proof.
  unfold over_8bits. intros H.
  repeat (apply orb_false_iff in H as [H ?]).
  repeat match goal with
         | E : (_ <? _) = false |- _ => apply Z.ltb_ge in E
         end.
  lia.
Qed.

Lemma over_8bits_true l :
  255 < scllpp l \/ 255 < sclhi3c l \/ 255 < scllod l
  \/ 255 < sclhi2c l \/ 255 < free l \/ 255 < oneus l ->
  over_8bits l = true.
Proof.
  unfold over_8bits. intros H.
  repeat rewrite orb_true_iff. rewrite !Z.ltb_lt. tauto.
Qed.

(** Every compute variable is a 32-bit value. *)
Lemma DRC_range x d : 0 <= DRC x d < 2 ^ 32.
Proof. unfold DIV_ROUND_CLOSEST, div32. apply u32_range. Qed.

Lemma scl_high_low_range T pp duty bus :
  0 <= fst (scl_high_low T pp duty bus) < 2 ^ 32
  /\ 0 <= snd (scl_high_low T pp duty bus) < 2 ^ 32.
Proof.
  unfold scl_high_low, sub32, add32, div32.
  destruct bus;
    repeat match goal with
           | |- context [if ?b then _ else _] => destruct b
           end; cbn [fst snd]; split; apply u32_range.
Qed.

Lemma scllpp_adjust_range T pp h l :
  0 <= l < 2 ^ 32 -> 0 <= scllpp_adjust T pp h l < 2 ^ 32.
Proof.
  intros Hl. unfold scllpp_adjust, sub32, add32.
  repeat match goal with
         | |- context [if ?b then _ else _] => destruct b
         end; try apply u32_range; assumption.
Qed.

Lemma scl_od_range T pp od duty l bus :
  0 <= l < 2 ^ 32 ->
  0 <= fst (scl_od T pp od duty l bus) < 2 ^ 32
  /\ 0 <= snd (scl_od T pp od duty l bus) < 2 ^ 32.
Proof.
  intros Hl. unfold scl_od, sub32, add32.
  destruct bus;
    repeat match goal with
           | |- context [if ?b then _ else _] => destruct b
           end; cbn [fst snd]; split;
    try apply u32_range; try apply DRC_range; try assumption; lia.
Qed.

Lemma bus_free_range T lod bus : 0 <= bus_free T lod bus < 2 ^ 32.
Proof.
  unfold bus_free, add32. destruct bus;
    [apply u32_range | apply DRC_range].
Qed.

Lemma one_us_range T : 0 <= one_us T < 2 ^ 32.
Proof. unfold one_us, sub32. apply u32_range. Qed.

Lemma locals_range T pp od duty bus :
  let l := scl_computation T pp od duty bus in
  0 <= scllpp l /\ 0 <= sclhi3c l /\ 0 <= scllod l
  /\ 0 <= sclhi2c l /\ 0 <= free l /\ 0 <= oneus l.
Proof.
  unfold scl_computation.
  pose proof (scl_high_low_range T pp duty bus) as [Hh Hl].
  destruct (scl_high_low T pp duty bus) as [h l]. cbn [fst snd] in *.
  pose proof (scllpp_adjust_range T pp h l Hl) as Ha.
  pose proof (scl_od_range T pp od duty _ bus Ha) as [Hod Hh2].
  destruct (scl_od T pp od duty _ bus) as [lod h2].
  cbn [fst snd] in *.
  pose proof (bus_free_range T lod bus).
  pose proof (one_us_range T).
  cbn. lia.
Qed.

(** The one-microsecond count of a period that passes the range test. *)
Lemma one_us_in_range T :
  0 < T < 2 ^ 32 -> one_us T <= 255 ->
  one_us T = round_half_up 100000 T - 2
  /\ 2 <= round_half_up 100000 T <= 257.
Proof.
  intros HT Hle. unfold one_us in *.
  pose proof (half_bounds T).
  rewrite DRC_exact in * by lia.
  pose proof (round_half_up_nonneg 100000 T) as Hr.
  assert (round_half_up 100000 T <= 100000 + T / 2) as Hu.
  { unfold round_half_up. apply Z.div_le_upper_bound; nia. }
  destruct (Z_lt_le_dec (round_half_up 100000 T) 2) as [Hs | Hb].
  - unfold sub32 in Hle. rewrite u32_below in Hle by lia. lia.
  - unfold sub32 in *. rewrite u32_small in * by lia. lia.
Qed.

Lemma period_window T :
  0 < T -> 2 <= round_half_up 100000 T <= 257 -> 389 <= T <= 66666.
Proof.
  intros HT Hr. pose proof (round_half_up_bounds 100000 T HT).
  pose proof (half_bounds T). nia.
Qed.

(** ** Properties of the two entry points *)

Lemma locals_48MHz_12M5 :
  locals_of 48000000 12500000 1000000 50 I3C_PURE_I3C_BUS
  = mkLocals 1 1 18 0 10 46 0.
Proof. vm_compute. reflexivity. Qed.

(** C1.  With a 48 MHz kernel clock, a 12.5 MHz bus, a 50 % duty cycle, a
    pure I3C bus and a zero I2C clock, the parameter check passes and the
    run divides by [i2cFreq] = 0 at line 142: C gives it no result.  With a
    nonzero I2C clock in its place (1 MHz here) the call succeeds and stores
    SCLPPLowDuration 1, SCLI3CHighDuration 1, SCLODLowDuration 18,
    SCLI2CHighDuration 0, BusFreeDuration 10, BusIdleDuration 46 and an
    SDAHoldTime encoding of 0. *)
Theorem ctrl_48MHz_12M5_pure_zero_i2c pConfig :
  verify_parameters 48000000 12500000 0 I3C_PURE_I3C_BUS = SUCCESS
  /\ divides_by_zero 48000000 12500000 0 50 I3C_PURE_I3C_BUS = true
  /\ I3C_CtrlTimingComputation_run pConfig
       48000000 12500000 0 50 I3C_PURE_I3C_BUS = None
  /\ I3C_CtrlTimingComputation_run pConfig
       48000000 12500000 1000000 50 I3C_PURE_I3C_BUS
     = Some (SUCCESS,
             {| SDAHoldTime := 0;
                SCLPPLowDuration := 1;
                SCLI3CHighDuration := 1;
                SCLODLowDuration := 18;
                SCLI2CHighDuration := 0;
                BusFreeDuration := 10;
                BusIdleDuration := 46 |}).
Proof.
  assert (divides_by_zero 48000000 12500000 0 50 I3C_PURE_I3C_BUS = true)
    as Ez by (vm_compute; reflexivity).
  assert (divides_by_zero 48000000 12500000 1000000 50 I3C_PURE_I3C_BUS
          = false) as En by (vm_compute; reflexivity).
  unfold I3C_CtrlTimingComputation_run. rewrite Ez, En.
  repeat split.
  rewrite ctrl_cases, locals_48MHz_12M5.
  unfold store_config. cbn [sdahold]. rewrite Z.shiftl_0_l.
  vm_compute. reflexivity.
Qed.

(** C6. A duty cycle above 50 makes the controller computation return
    ERROR, whatever the clocks and the bus type, and the record is left as
    it was. *)
Theorem duty_cycle_above_50_is_error pConfig clk i3c i2c duty bus :
  50 < duty -> I3C_CtrlTimingComputation pConfig clk i3c i2c duty bus = (ERROR, pConfig).
Proof.
  intros H. rewrite ctrl_cases.
  apply Z.ltb_lt in H as ->.
  now rewrite andb_false_r.
Qed.

(** C7. A zero kernel clock makes the controller computation return ERROR
    for every bus clock, duty cycle and bus type, and makes the target
    computation return ERROR; neither writes its record. *)
Theorem zero_clock_is_error pConfig pTgt i3c i2c duty bus :
  I3C_CtrlTimingComputation pConfig 0 i3c i2c duty bus = (ERROR, pConfig)
  /\ I3C_TgtTimingComputation pTgt 0 = (ERROR, pTgt).
Proof.
  split; [|reflexivity].
  rewrite ctrl_cases.
  assert (verify_parameters 0 i3c i2c bus = ERROR) as ->; [|reflexivity].
  unfold verify_parameters. destruct bus; reflexivity.
Qed.

(** The target function on a nonzero 32-bit clock: no error path is left. *)
Lemma tgt_nonzero pTgt clk :
  0 < clk < 2 ^ 32 ->
  I3C_TgtTimingComputation pTgt clk
  = (SUCCESS, {| BusAvailableDuration := u8 (one_us (period clk)) |}).
Proof.
  intros H. pose proof (period_at_least_23 clk H) as HT.
  unfold I3C_TgtTimingComputation.
  assert ((clk =? 0) = false) as -> by (apply Z.eqb_neq; lia).
  assert ((period clk =? 0) = false) as E by (apply Z.eqb_neq; lia).
  status_step. rewrite E. status_step. rewrite E. reflexivity.
Qed.

(** C9. For a nonzero 32-bit kernel clock the 32-bit period is at least 23,
    hence nonzero: the controller's test [(dutyCycle > 50U) || (ti3cclk ==
    0U)] reduces to the duty-cycle test, and the target computation
    succeeds. *)
Theorem period_of_nonzero_clock_is_nonzero clk :
  is_uint32 clk -> clk <> 0 ->
  23 <= period clk
  /\ (period clk =? 0) = false
  /\ (forall duty, (50 <? duty) || (period clk =? 0) = (50 <? duty))
  /\ (forall pTgt, fst (I3C_TgtTimingComputation pTgt clk) = SUCCESS).
Proof.
  intros Hr Hz. unfold is_uint32 in Hr.
  assert (0 < clk < 2 ^ 32) as H by lia.
  pose proof (period_at_least_23 clk H) as HT.
  assert ((period clk =? 0) = false) as E by (apply Z.eqb_neq; lia).
  repeat split; try assumption.
  - intros duty. rewrite E. apply orb_false_r.
  - intros pTgt. now rewrite tgt_nonzero.
Qed.

(** C10. At 1000 Hz the period is 10^8, the rounded one-microsecond count is
    below 2, the subtraction of 2 wraps to 2^32 - 2, and the target
    computation still succeeds, storing the low eight bits, 254. *)
Theorem tgt_1000Hz_wraps pTgt :
  period 1000 = 10 ^ 8
  /\ round_half_up 100000 (period 1000) < 2
  /\ one_us (period 1000) = 2 ^ 32 - 2
  /\ I3C_TgtTimingComputation pTgt 1000 = (SUCCESS, {| BusAvailableDuration := 254 |}).
Proof. repeat split; vm_compute; reflexivity. Qed.

(** C3, as amended.  For a nonzero 32-bit frequency the period is the
    round-half-up quotient of 10^11 by the frequency reduced modulo 2^32;
    from 24 Hz on the quotient fits and the period equals it. *)
Theorem period_is_rounded_quotient f :
  is_uint32 f -> f <> 0 ->
  period f = u32 (round_half_up (10 ^ 11) f)
  /\ (24 <= f -> period f = round_half_up (10 ^ 11) f
                 /\ round_half_up (10 ^ 11) f = (10 ^ 11 + f / 2) / f).
Proof.
  intros Hr Hz. unfold is_uint32 in Hr.
  change (10 ^ 11) with SEC210PSEC. split.
  - apply period_quotient. lia.
  - intros H24. split; [apply period_exact; lia | reflexivity].
Qed.

(** C2, as amended.  When the controller computation succeeds,
    BusIdleDuration is the round-half-up quotient of 100000 (one microsecond
    in units of 10 ps) by the clock period, minus 2. *)
Theorem bus_idle_duration_on_success pConfig clk i3c i2c duty bus cfg :
  I3C_CtrlTimingComputation pConfig clk i3c i2c duty bus = (SUCCESS, cfg) ->
  BusIdleDuration cfg = round_half_up 100000 (period clk) - 2.
Proof.
  intros H. apply ctrl_success in H as (_ & _ & HT & Hg & ->).
  apply over_8bits_false in Hg as (_ & _ & _ & _ & _ & Ho).
  cbn [store_config BusIdleDuration].
  rewrite locals_oneus in *.
  pose proof (period_range clk) as Hp. unfold is_uint32 in Hp.
  destruct (one_us_in_range (period clk)) as [E Hw]; [lia | assumption |].
  rewrite E. apply u8_small. lia.
Qed.

(** C8. When the controller computation succeeds, the SDA hold flag is 0
    exactly when the clock period exceeds 600 and 1 otherwise, and
    SDAHoldTime is that flag shifted to the SDA_HD position. *)
Theorem sda_hold_time_on_success pConfig clk i3c i2c duty bus cfg :
  0 <= I3C_TIMINGR1_SDA_HD_Pos < 32 ->
  I3C_CtrlTimingComputation pConfig clk i3c i2c duty bus = (SUCCESS, cfg) ->
  (sda_hold (period clk) = 0 <-> 600 < period clk)
  /\ (sda_hold (period clk) = 1 <-> period clk <= 600)
  /\ SDAHoldTime cfg
     = Z.shiftl (sda_hold (period clk)) I3C_TIMINGR1_SDA_HD_Pos.
Proof.
  intros Hpos H. apply ctrl_success in H as (_ & _ & _ & _ & ->).
  cbn [store_config SDAHoldTime]. rewrite locals_sdahold.
  unfold sda_hold.
  destruct (Z.ltb_spec 600 (period clk)); repeat split; try lia.
  - now rewrite Z.shiftl_0_l.
  - rewrite Z.shiftl_1_l. apply u32_small. split.
    + apply Z.pow_nonneg. lia.
    + apply Z.pow_lt_mono_r; lia.
Qed.

(** The range test on the compute variables, for the runs that get past
    their divisions. *)
Lemma range_gate_counts pConfig clk i3c i2c duty bus :
  let l := locals_of clk i3c i2c duty bus in
  let r := I3C_CtrlTimingComputation pConfig clk i3c i2c duty bus in
  (255 < scllpp l \/ 255 < sclhi3c l \/ 255 < scllod l
   \/ 255 < sclhi2c l \/ 255 < free l \/ 255 < oneus l ->
   r = (ERROR, pConfig))
  /\ (fst r = ERROR -> snd r = pConfig)
  /\ (fst r = SUCCESS ->
      (SCLPPLowDuration (snd r) = scllpp l
       /\ 0 <= SCLPPLowDuration (snd r) <= 255)
      /\ (SCLI3CHighDuration (snd r) = sclhi3c l
          /\ 0 <= SCLI3CHighDuration (snd r) <= 255)
      /\ (SCLODLowDuration (snd r) = scllod l
          /\ 0 <= SCLODLowDuration (snd r) <= 255)
      /\ (SCLI2CHighDuration (snd r) = sclhi2c l
          /\ 0 <= SCLI2CHighDuration (snd r) <= 255)
      /\ (BusFreeDuration (snd r) = free l
          /\ 0 <= BusFreeDuration (snd r) <= 255)
      /\ (BusIdleDuration (snd r) = oneus l
          /\ 0 <= BusIdleDuration (snd r) <= 255)).
Proof.
  intros l r. split; [|split].
  - intros Hover. subst r. rewrite ctrl_cases.
    fold l. rewrite (over_8bits_true l Hover).
    now rewrite andb_false_r.
  - subst r. intros He.
    destruct (ctrl_status pConfig clk i3c i2c duty bus) as [[_ E] | E];
      [assumption | rewrite E in He; discriminate].
  - intros Hs. subst r.
    destruct (I3C_CtrlTimingComputation (pConfig) clk i3c i2c duty bus) as [st cfg] eqn:E.
    cbn [fst snd] in *. subst st.
    apply ctrl_success in E as (_ & _ & _ & Hg & ->). fold l in Hg |- *.
    apply over_8bits_false in Hg.
    pose proof (locals_range (period clk) (period i3c) (period i2c) duty bus)
      as Hn.
    cbv zeta in Hn. fold l in Hn.
    cbn [store_config SCLPPLowDuration SCLI3CHighDuration SCLODLowDuration
         SCLI2CHighDuration BusFreeDuration BusIdleDuration].
    rewrite !u8_small by lia. lia.
Qed.

(** C5, as amended.  When the call returns: if one of the six cycle counts
    computed from the inputs exceeds 255 it returns ERROR and leaves the
    record as it was, as it does on every ERROR; on SUCCESS the six duration
    fields are those counts, each between 0 and 255, and SDAHoldTime is the
    hold flag at the SDA_HD position, either 0 or 1 shifted there. *)
Theorem range_gate_of_run pConfig clk i3c i2c duty bus res :
  I3C_CtrlTimingComputation_run pConfig clk i3c i2c duty bus = Some res ->
  let l := locals_of clk i3c i2c duty bus in
  (255 < scllpp l \/ 255 < sclhi3c l \/ 255 < scllod l
   \/ 255 < sclhi2c l \/ 255 < free l \/ 255 < oneus l ->
   res = (ERROR, pConfig))
  /\ (fst res = ERROR -> snd res = pConfig)
  /\ (fst res = SUCCESS ->
      (SCLPPLowDuration (snd res) = scllpp l
       /\ 0 <= SCLPPLowDuration (snd res) <= 255)
      /\ (SCLI3CHighDuration (snd res) = sclhi3c l
          /\ 0 <= SCLI3CHighDuration (snd res) <= 255)
      /\ (SCLODLowDuration (snd res) = scllod l
          /\ 0 <= SCLODLowDuration (snd res) <= 255)
      /\ (SCLI2CHighDuration (snd res) = sclhi2c l
          /\ 0 <= SCLI2CHighDuration (snd res) <= 255)
      /\ (BusFreeDuration (snd res) = free l
          /\ 0 <= BusFreeDuration (snd res) <= 255)
      /\ (BusIdleDuration (snd res) = oneus l
          /\ 0 <= BusIdleDuration (snd res) <= 255)
      /\ (SDAHoldTime (snd res) = 0
          \/ SDAHoldTime (snd res)
             = u32 (Z.shiftl 1 I3C_TIMINGR1_SDA_HD_Pos))).
Proof.
  intros E l. unfold I3C_CtrlTimingComputation_run in E.
  destruct (divides_by_zero clk i3c i2c duty bus); [discriminate|].
  injection E as <-.
  pose proof (range_gate_counts pConfig clk i3c i2c duty bus) as G.
  cbv zeta in G. fold l in G. destruct G as (G1 & G2 & G3).
  split; [assumption|]. split; [assumption|].
  intros Hs. specialize (G3 Hs).
  repeat (split; [apply G3|]).
  destruct (I3C_CtrlTimingComputation pConfig clk i3c i2c duty bus)
    as [st cfg] eqn:E.
  cbn [fst snd] in *. subst st.
  apply ctrl_success in E as (_ & _ & _ & _ & ->).
  cbn [store_config SDAHoldTime]. rewrite locals_sdahold.
  unfold sda_hold. destruct (600 <? period clk); [left | right].
  - now rewrite Z.shiftl_0_l.
  - reflexivity.
Qed.

(** ** Accuracy of the push-pull period on a pure bus *)

Lemma scllpp_adjust_exact T pp H L :
  0 < T < 2 ^ 32 -> 1 <= H -> 0 <= L ->
  0 <= pp - H * T + T / 2 + 1 < 2 ^ 32 ->
  (L + H) * T < 2 ^ 32 ->
  scllpp_adjust T pp (u32 (H - 1)) (u32 (L - 1))
  = u32 (adjusted_low T pp H L - 1).
Proof.
  intros HT HH HL Hb Hs.
  assert (0 <= H * T /\ 0 <= L * T) as [HHT HLT] by nia.
  assert (L + H < 2 ^ 32) as HLH by nia.
  assert (T <= H * T) as HTH by nia.
  assert ((L + H) * T = L * T + H * T) as Ed by ring.
  unfold scllpp_adjust, adjusted_low.
  rewrite (div32_exact T 2) by lia.
  autorewrite with wrap32.
  replace (H - 1 + 1) with H by ring.
  replace (L - 1 + 1) with L by ring.
  rewrite (u32_small H), (u32_small L) by lia.
  rewrite !(mul32_small H T), !(mul32_small L T) by lia.
  rewrite !bound32, !(u32_small (pp - H * T + T / 2 + 1)) by lia.
  destruct (pp - H * T + T / 2 + 1 <=? L * T) eqn:C1;
    autorewrite with wrap32.
  - replace (L - 1 - 1 + (H - 1) + 1 + 1) with (L - 1 + H) by ring.
    assert ((L - 1 + H) * T = L * T + H * T - T) as Ed' by ring.
    apply Z.leb_le in C1.
    rewrite (u32_small (L - 1 + H)) by lia.
    rewrite mul32_small by lia.
    destruct ((L - 1 + H) * T <? pp - H * T + T / 2 + 1);
      autorewrite with wrap32; f_equal; ring.
  - replace (L - 1 + (H - 1) + 1 + 1) with (L + H) by ring.
    rewrite (u32_small (L + H)) by lia.
    rewrite mul32_small by lia.
    destruct ((L + H) * T <? pp - H * T + T / 2 + 1);
      autorewrite with wrap32; f_equal; ring.
Qed.

Lemma duty_share_bounds pp share T :
  0 < T -> 0 <= pp * share ->
  0 <= duty_share pp share T
  /\ 100 * (duty_share pp share T * T) <= pp * share + T / 2 + 50 * T
  /\ pp * share + T / 2 - 50 * T < 100 * (duty_share pp share T * T).
Proof.
  intros HT Hp. unfold duty_share.
  set (x1 := round_half_up (pp * share) T).
  pose proof (round_half_up_bounds (pp * share) T HT) as B1. fold x1 in B1.
  pose proof (round_half_up_nonneg (pp * share) T HT Hp) as N1. fold x1 in N1.
  assert (0 < 100) as H100 by lia.
  pose proof (round_half_up_bounds x1 100 H100) as B2.
  pose proof (round_half_up_nonneg x1 100 H100 N1) as N2.
  set (x2 := round_half_up x1 100) in *.
  change (100 / 2) with 50 in B2.
  split; [assumption|]. nia.
Qed.

Lemma duty_share_exact pp share T :
  389 <= T < 2 ^ 32 -> 0 <= pp * share -> pp * share + T / 2 < 2 ^ 32 ->
  DRC (DRC (mul32 pp share) T) 100 = duty_share pp share T.
Proof.
  intros HT Hp Hs. unfold duty_share.
  pose proof (half_bounds T).
  rewrite mul32_small by lia.
  rewrite (DRC_exact (pp * share) T) by lia.
  assert (0 < T) as HT' by lia.
  pose proof (round_half_up_bounds (pp * share) T HT') as B1.
  pose proof (round_half_up_nonneg (pp * share) T HT' Hp) as N1.
  apply DRC_exact; try lia.
  change (100 / 2) with 50. nia.
Qed.

Lemma min_high_bounds T :
  0 < T -> 1 <= min_high T /\ TI3CH_MIN <= min_high T * T
           /\ min_high T * T < TI3CH_MIN + 2 * T.
Proof.
  intros HT. unfold min_high, TI3CH_MIN.
  pose proof (round_half_up_bounds 3200 T HT) as B.
  pose proof (round_half_up_nonneg 3200 T HT) as N.
  pose proof (half_bounds T).
  set (y := round_half_up 3200 T) in *.
  destruct (Z.ltb_spec (y * T) 3200); nia.
Qed.

Lemma scl_high_low_pure T pp d :
  389 <= T <= 66666 -> 0 <= pp -> 0 <= d <= 50 ->
  pp * (100 - d) + T / 2 < 2 ^ 32 ->
  scl_high_low T pp d I3C_PURE_I3C_BUS
  = if duty_share pp d T * T <? TI3CH_MIN
    then (u32 (min_high T - 1), u32 (round_half_up pp T - min_high T - 1))
    else (u32 (duty_share pp d T - 1), u32 (duty_share pp (100 - d) T - 1)).
Proof.
  intros HT Hpp Hd Hs.
  pose proof (half_bounds T) as Hh.
  assert (0 <= pp * d <= pp * (100 - d)) as Hpd by nia.
  assert (pp <= pp * (100 - d)) as Hp1 by nia.
  unfold scl_high_low.
  rewrite (sub32_small 100 d) by lia.
  rewrite !(duty_share_exact pp d T), (duty_share_exact pp (100 - d) T)
    by lia.
  destruct (duty_share_bounds pp d T) as (N2 & U2 & _); [lia | lia |].
  rewrite !add32_sub32_1.
  rewrite !(u32_small (duty_share pp d T)) by nia.
  rewrite !(mul32_small (duty_share pp d T) T) by nia.
  destruct (duty_share pp d T * T <? TI3CH_MIN) eqn:C.
  - pose proof (min_high_bounds T) as (M1 & M2 & M3); [lia|].
    unfold TI3CH_MIN in M2, M3.
    unfold min_high in *. unfold TI3CH_MIN in *.
    rewrite !(DRC_exact 3200 T), (DRC_exact pp T) by lia.
    assert (0 < T) as HT' by lia.
    pose proof (round_half_up_bounds 3200 T HT') as B.
    pose proof (round_half_up_nonneg 3200 T HT') as N.
    set (y := round_half_up 3200 T) in *.
    clear M1 M2 M3.
    rewrite !(u32_small y) by nia.
    rewrite !(mul32_small y T) by nia.
    destruct (y * T <? 3200).
    + replace (y + 1 - 1) with y by ring.
      rewrite (u32_small y), (add32_small y 1) by nia.
      now rewrite sub32_sub32.
    + rewrite add32_sub32_1. rewrite (u32_small y) by nia.
      now rewrite sub32_sub32.
  - reflexivity.
Qed.

(** When the high time is set from its 32 ns minimum, the low count takes
    what is left of the rounded period and neither adjustment fires. *)
Lemma adjusted_low_min_high T pp H :
  0 < T -> 1 <= H ->
  adjusted_low T pp H (round_half_up pp T - H) = round_half_up pp T - H.
Proof.
  intros HT HH. unfold adjusted_low.
  pose proof (round_half_up_bounds pp T HT) as B.
  set (z := round_half_up pp T) in *.
  assert ((z - H) * T = T * z - H * T) as E1 by ring.
  assert (T <= H * T) as E2 by nia.
  destruct (Z.leb_spec (pp - H * T + T / 2 + 1) ((z - H) * T)); [lia|].
  replace (z - H + H) with z by ring.
  destruct (Z.ltb_spec (z * T) (pp - H * T + T / 2 + 1)); [lia|].
  reflexivity.
Qed.

(** When both counts come from the duty cycle, the two adjustments leave
    the period within one clock cycle of the request. *)
Lemma adjusted_low_duty T pp d :
  0 < T -> 0 <= pp -> 0 <= d <= 50 ->
  let H := duty_share pp d T in
  let L := duty_share pp (100 - d) T in
  1 <= H ->
  0 <= pp - H * T + T / 2 + 1
  /\ L - 1 <= adjusted_low T pp H L <= L + 1
  /\ - T < (adjusted_low T pp H L + H) * T - pp < T.
Proof.
  intros HT Hpp Hd H L HH.
  assert (0 <= pp * d <= 50 * pp) as Hpd by nia.
  assert (pp * (100 - d) = 100 * pp - pp * d) as Hpc by ring.
  destruct (duty_share_bounds pp d T) as (NH & UH & LH); [lia | lia |].
  destruct (duty_share_bounds pp (100 - d) T) as (NL & UL & LL);
    [lia | lia |].
  fold H in NH, UH, LH. fold L in NL, UL, LL.
  pose proof (half_bounds T) as Hh.
  assert (T <= H * T) as E2 by nia.
  unfold adjusted_low.
  destruct (Z.leb_spec (pp - H * T + T / 2 + 1) (L * T)) as [C1 | C1].
  - assert ((L - 1 + H) * T = L * T + H * T - T) as E by ring.
    destruct (Z.ltb_spec ((L - 1 + H) * T) (pp - H * T + T / 2 + 1));
      [lia|].
    rewrite E. lia.
  - assert ((L + H) * T = L * T + H * T) as E by ring.
    destruct (Z.ltb_spec ((L + H) * T) (pp - H * T + T / 2 + 1)).
    + replace ((L + 1 + H) * T) with (L * T + H * T + T) by ring. lia.
    + rewrite E. lia.
Qed.

(** A low count that has wrapped below zero stays out of the 8-bit range
    through the two adjustments. *)
Lemma scllpp_adjust_wrapped T pp h l :
  257 <= l < 2 ^ 32 - 1 -> 255 < scllpp_adjust T pp h l.
Proof.
  intros Hl. unfold scllpp_adjust.
  destruct (_ <=? _).
  - rewrite (sub32_small l 1) by lia.
    destruct (_ <? _); [rewrite add32_small|]; lia.
  - destruct (_ <? _); [rewrite add32_small|]; lia.
Qed.

(** The push-pull counts of a pure bus once they pass the range test, in
    terms of the three periods only. *)
Lemma pure_counts_accuracy T pp d :
  389 <= T <= 66666 -> 0 <= pp -> 0 <= d <= 50 ->
  pp * (100 - d) + T / 2 < 2 ^ 32 ->
  let h := fst (scl_high_low T pp d I3C_PURE_I3C_BUS) in
  let l := scllpp_adjust T pp h
             (snd (scl_high_low T pp d I3C_PURE_I3C_BUS)) in
  h <= 255 -> l <= 255 ->
  - T < (l + h + 2) * T - pp < T.
Proof.
  intros HT Hpp Hd Hs. cbv zeta.
  rewrite scl_high_low_pure by assumption.
  pose proof (half_bounds T) as Hh.
  assert (0 < T) as HT' by lia.
  assert (pp <= pp * (100 - d)) as Hp1 by nia.
  destruct (Z.ltb_spec (duty_share pp d T * T) TI3CH_MIN) as [C | C];
    cbn [fst snd].
  - (* high time from the minimum *)
    pose proof (min_high_bounds T HT') as (M1 & M2 & M3).
    unfold TI3CH_MIN in M2, M3.
    set (H := min_high T) in *.
    pose proof (round_half_up_bounds pp T HT') as B.
    pose proof (round_half_up_nonneg pp T HT' Hpp) as N.
    set (z := round_half_up pp T) in *.
    assert (H <= 10) as HH10 by nia.
    intros _ Hl.
    destruct (Z_lt_le_dec (z - H) 0) as [Hneg | Hpos].
    + exfalso.
      rewrite (u32_below (z - H - 1)) in Hl by lia.
      pose proof (scllpp_adjust_wrapped T pp (u32 (H - 1))
                    (z - H - 1 + 2 ^ 32)).
      lia.
    + assert ((z - H + H) * T = T * z) as E by ring.
      assert (H * T <= T * z) as E1.
      { rewrite (Z.mul_comm T z). apply Z.mul_le_mono_nonneg_r; lia. }
      assert (z < 2 ^ 32) as Hz32 by nia.
      rewrite scllpp_adjust_exact in Hl |- * by lia.
      rewrite adjusted_low_min_high in Hl |- * by lia.
      apply u32_le_small in Hl as [Hz ->]; try lia.
      rewrite (u32_small (H - 1)) by lia.
      replace (z - H - 1 + (H - 1) + 2) with z by ring. lia.
  - (* both counts from the duty cycle *)
    assert (0 <= pp * d <= pp * (100 - d)) as Hpd by nia.
    destruct (duty_share_bounds pp d T) as (NH & UH & LH); [lia | lia |].
    destruct (duty_share_bounds pp (100 - d) T) as (NL & UL & LL);
      [lia | lia |].
    unfold TI3CH_MIN in C.
    pose proof (adjusted_low_duty T pp d HT' Hpp Hd) as Adj.
    cbv zeta in Adj.
    set (H := duty_share pp d T) in *.
    set (L := duty_share pp (100 - d) T) in *.
    assert (1 <= H) as HH.
    { destruct (Z_lt_le_dec H 1) as [Hsmall | ?]; [|assumption].
      assert (H = 0) as E0 by lia. rewrite E0 in C. lia. }
    destruct (Adj HH) as (Bd & Ba & Acc).
    assert ((L + H) * T = L * T + H * T) as E by ring.
    assert (0 <= L * T) as NLT by (apply Z.mul_nonneg_nonneg; lia).
    assert (T <= H * T) as NHT.
    { rewrite <- (Z.mul_1_l T) at 1. apply Z.mul_le_mono_nonneg_r; lia. }
    intros Hh255 Hl.
    rewrite scllpp_adjust_exact in Hl |- * by lia.
    set (L2 := adjusted_low T pp H L) in *.
    assert (L < 2 ^ 32) as HL32.
    { destruct (Z_lt_le_dec L (2 ^ 32)) as [? | Hbig]; [assumption|].
      assert (2 ^ 32 * T <= L * T)
        by (apply Z.mul_le_mono_nonneg_r; lia).
      lia. }
    assert (H < 2 ^ 32) as HH32.
    { destruct (Z_lt_le_dec H (2 ^ 32)) as [? | Hbig]; [assumption|].
      assert (2 ^ 32 * T <= H * T)
        by (apply Z.mul_le_mono_nonneg_r; lia).
      lia. }
    apply u32_le_small in Hl as [Hz ->]; try lia.
    rewrite (u32_small (H - 1)) in Hh255 |- * by lia.
    replace (L2 - 1 + (H - 1) + 2) with (L2 + H) by ring. lia.
Qed.

(** On a pure bus, when the roundings of the duty shares of the requested
    period stay within 32 bits and the computation succeeds, the period
    [(SCLPPLowDuration + SCLI3CHighDuration + 2)] clock cycles long differs
    from the requested period by less than one clock cycle. *)
Theorem push_pull_period_accuracy pConfig clk i3c i2c duty cfg :
  0 <= duty ->
  period i3c * (100 - duty) + period clk / 2 < 2 ^ 32 ->
  I3C_CtrlTimingComputation pConfig clk i3c i2c duty I3C_PURE_I3C_BUS = (SUCCESS, cfg) ->
  Z.abs ((SCLPPLowDuration cfg + SCLI3CHighDuration cfg + 2) * period clk
         - period i3c) < period clk.
Proof.
  intros Hd Hnw H.
  apply ctrl_success in H as (_ & Hd50 & HT0 & Hg & ->).
  pose proof (locals_range (period clk) (period i3c) (period i2c) duty
                I3C_PURE_I3C_BUS) as Hn. cbv zeta in Hn.
  apply over_8bits_false in Hg as (Gl & Gh & _ & _ & _ & Go).
  rewrite locals_oneus in Go.
  pose proof (period_range clk) as RT. pose proof (period_range i3c) as Rp.
  unfold is_uint32 in RT, Rp.
  destruct (one_us_in_range (period clk)) as [_ Hw]; [lia | assumption |].
  apply period_window in Hw; [|lia].
  cbn [store_config SCLPPLowDuration SCLI3CHighDuration].
  rewrite !u8_small by lia.
  destruct (locals_high_low (period clk) (period i3c) (period i2c) duty
              I3C_PURE_I3C_BUS) as [Eh El].
  rewrite Eh, El in *.
  pose proof (pure_counts_accuracy (period clk) (period i3c) duty) as A.
  cbv zeta in A. lia.
Qed.

(** X12. On a pure bus, for every I3C bus clock of 2400 Hz or more and a
    duty cycle that is not negative, a successful computation gives a
    push-pull period [(SCLPPLowDuration + SCLI3CHighDuration + 2)] clock
    periods long that differs from the requested period by less than one
    clock period: the condition of [push_pull_period_accuracy] holds for
    such clocks. *)
Theorem push_pull_period_accuracy_from_2400Hz pConfig clk i3c i2c duty cfg :
  0 <= duty -> 2400 <= i3c < 2 ^ 32 ->
  I3C_CtrlTimingComputation pConfig clk i3c i2c duty I3C_PURE_I3C_BUS
  = (SUCCESS, cfg) ->
  Z.abs ((SCLPPLowDuration cfg + SCLI3CHighDuration cfg + 2) * period clk
         - period i3c) < period clk.
Proof.
  intros Hd Hf H.
  apply push_pull_period_accuracy with (3 := H); [assumption|].
  apply ctrl_success in H as (_ & Hd50 & HT0 & Hg & _).
  apply over_8bits_false in Hg as (_ & _ & _ & _ & _ & Go).
  rewrite locals_oneus in Go.
  pose proof (period_range clk) as RT. unfold is_uint32 in RT.
  destruct (one_us_in_range (period clk)) as [_ Hw]; [lia | assumption |].
  apply period_window in Hw; [|lia].
  pose proof (half_bounds (period clk)).
  rewrite (period_exact i3c) by lia.
  assert (0 <= round_half_up SEC210PSEC i3c <= 41666667) as [Hp0 Hp1].
  { unfold round_half_up, SEC210PSEC. pose proof (half_bounds i3c). split.
    - apply Z.div_pos; lia.
    - apply Z.lt_succ_r. apply Z.div_lt_upper_bound; lia. }
  nia.
Qed.

(** C4.  With a 2 MHz kernel clock, a 1 kHz I3C bus, a 1 MHz I2C clock and
    a 50 % duty cycle on a pure bus the run reaches no division by zero and
    succeeds, although the product of the requested period by the duty
    cycle has wrapped modulo 2^32: the counts 141 and 140 make a period of
    14150000, which is 1717 clock cycles away from the requested
    100000000. *)
Theorem push_pull_period_1kHz_wrapped pConfig :
  let r := I3C_CtrlTimingComputation pConfig
             2000000 1000 1000000 50 I3C_PURE_I3C_BUS in
  I3C_CtrlTimingComputation_run pConfig
    2000000 1000 1000000 50 I3C_PURE_I3C_BUS = Some r
  /\ fst r = SUCCESS
  /\ period 2000000 = 50000 /\ period 1000 = 100000000
  /\ period 1000 * 50 = 5000000000
  /\ mul32 (period 1000) 50 = 705032704
  /\ SCLPPLowDuration (snd r) = 141 /\ SCLI3CHighDuration (snd r) = 140
  /\ (SCLPPLowDuration (snd r) + SCLI3CHighDuration (snd r) + 2)
     * period 2000000 = 14150000
  /\ ~ Z.abs ((SCLPPLowDuration (snd r) + SCLI3CHighDuration (snd r) + 2)
              * period 2000000 - period 1000) < period 2000000.
Proof.
  cbv zeta. unfold I3C_CtrlTimingComputation_run.
  assert (divides_by_zero 2000000 1000 1000000 50 I3C_PURE_I3C_BUS = false)
    as -> by (vm_compute; reflexivity).
  rewrite ctrl_cases.
  assert (locals_of 2000000 1000 1000000 50 I3C_PURE_I3C_BUS
          = mkLocals 140 141 141 0 1 0 0) as -> by (vm_compute; reflexivity).
  repeat split; try (vm_compute; reflexivity).
  vm_compute. intros H. discriminate H.
Qed.

(** ** Further properties of the two entry points *)

Lemma verify_parameters_success clk i3c i2c bus :
  verify_parameters clk i3c i2c bus = SUCCESS ->
  clk <> 0 /\ i3c <> 0 /\ (bus = I3C_MIXED_BUS -> i2c <> 0).
Proof.
  unfold verify_parameters.
  destruct (Z.eqb_spec clk 0), (Z.eqb_spec i3c 0), (Z.eqb_spec i2c 0), bus;
    cbn; intros E; try discriminate E; repeat split; auto; discriminate.
Qed.

(** What a successful controller call tells about its inputs and its
    compute variables. *)
Lemma ctrl_success_facts pConfig clk i3c i2c duty bus cfg :
  I3C_CtrlTimingComputation pConfig clk i3c i2c duty bus = (SUCCESS, cfg) ->
  let l := locals_of clk i3c i2c duty bus in
  cfg = store_config l
  /\ 389 <= period clk <= 66666
  /\ (0 <= scllpp l <= 255 /\ 0 <= sclhi3c l <= 255 /\ 0 <= scllod l <= 255
      /\ 0 <= sclhi2c l <= 255 /\ 0 <= free l <= 255 /\ 0 <= oneus l <= 255)
  /\ (bus = I3C_MIXED_BUS -> period i2c <= TSM_MIN).
Proof.
  intros H l.
  assert (bus = I3C_MIXED_BUS -> period i2c <= TSM_MIN) as Hi2c.
  { intros ->. rewrite ctrl_cases in H. cbn [is_pure negb andb] in H.
    destruct (Z.ltb_spec TSM_MIN (period i2c)); [|assumption].
    rewrite !andb_false_r in H. discriminate H. }
  apply ctrl_success in H as (_ & _ & HT0 & Hg & ->). fold l in Hg.
  apply over_8bits_false in Hg.
  pose proof (locals_range (period clk) (period i3c) (period i2c) duty bus)
    as Hn. cbv zeta in Hn. fold l in Hn.
  pose proof (period_range clk) as RT. unfold is_uint32 in RT.
  destruct (one_us_in_range (period clk)) as [_ Hw];
    [lia | unfold l in Hg; rewrite locals_oneus in Hg; lia |].
  apply period_window in Hw; [|lia].
  repeat split; try lia. assumption.
Qed.

Lemma locals_od T pp od duty bus :
  let l := scl_computation T pp od duty bus in
  scllod l = fst (scl_od T pp od duty (scllpp l) bus)
  /\ sclhi2c l = snd (scl_od T pp od duty (scllpp l) bus)
  /\ free l = bus_free T (scllod l) bus.
Proof.
  unfold scl_computation.
  destruct (scl_high_low T pp duty bus) as [h l0].
  destruct (scl_od T pp od duty _ bus) as [lod h2] eqn:E.
  cbn [scllod sclhi2c free scllpp]. rewrite E. auto.
Qed.

(** X1. A zero I3C bus clock makes the controller computation return ERROR
    on either bus type, with the record left as it was. *)
Theorem zero_bus_clock_is_error pConfig clk i2c duty bus :
  I3C_CtrlTimingComputation pConfig clk 0 i2c duty bus = (ERROR, pConfig).
Proof.
  rewrite ctrl_cases.
  assert (verify_parameters clk 0 i2c bus = ERROR) as ->; [|reflexivity].
  unfold verify_parameters. rewrite orb_true_r.
  destruct bus; reflexivity.
Qed.

(** X2. On a mixed bus every I2C clock below 100 kHz, zero included, makes
    the controller computation return ERROR with the record left as it was:
    its period exceeds the standard-mode limit [TSM_MIN]. *)
Theorem mixed_bus_i2c_below_100kHz_is_error pConfig clk i3c i2c duty :
  0 <= i2c < 100000 ->
  I3C_CtrlTimingComputation pConfig clk i3c i2c duty I3C_MIXED_BUS
  = (ERROR, pConfig).
Proof.
  intros Hi. rewrite ctrl_cases.
  destruct (Z.eqb_spec i2c 0) as [-> | Hnz].
  - assert (verify_parameters clk i3c 0 I3C_MIXED_BUS = ERROR) as ->;
      [|reflexivity].
    unfold verify_parameters. cbn [is_pure is_mixed andb].
    rewrite andb_false_r, !orb_true_r. reflexivity.
  - assert (TSM_MIN < period i2c) as Hp.
    { unfold TSM_MIN. destruct (Z_lt_le_dec i2c 24) as [Hs | Hl].
      - pose proof (period_low i2c). lia.
      - rewrite period_exact by lia.
        unfold round_half_up, SEC210PSEC. pose proof (half_bounds i2c).
        apply Z.lt_le_trans with 1000001; [lia|].
        apply Z.div_le_lower_bound; lia. }
    apply Z.ltb_lt in Hp. rewrite Hp. cbn [is_pure negb andb].
    now rewrite !andb_false_r.
Qed.

(** From 100 kHz on, the I2C period passes the standard-mode test. *)
Lemma i2c_period_from_100kHz i2c :
  100000 <= i2c < 2 ^ 32 -> period i2c <= TSM_MIN.
Proof.
  intros Hi. rewrite period_exact by lia.
  unfold round_half_up, SEC210PSEC, TSM_MIN. pose proof (half_bounds i2c).
  apply Z.lt_succ_r. apply Z.div_lt_upper_bound; lia.
Qed.

(** X3. The controller computation only succeeds for a kernel clock whose
    period lies between 389 and 66666 units of 10 ps, that is for a 32-bit
    clock between 1500004 Hz and 257400257 Hz: outside, the one-microsecond
    count does not fit its eight bits. *)
Theorem ctrl_success_clock_window pConfig clk i3c i2c duty bus cfg :
  is_uint32 clk ->
  I3C_CtrlTimingComputation pConfig clk i3c i2c duty bus = (SUCCESS, cfg) ->
  389 <= period clk <= 66666 /\ 1500004 <= clk <= 257400257.
Proof.
  intros Hr H. unfold is_uint32 in Hr.
  pose proof (ctrl_success _ _ _ _ _ _ _ H) as (Hv & _).
  apply verify_parameters_success in Hv as (Hc & _).
  apply ctrl_success_facts in H as (_ & Hw & _).
  split; [assumption|].
  destruct (Z_lt_le_dec clk 24) as [Hs | Hl].
  - pose proof (period_low clk). lia.
  - rewrite period_exact in Hw by lia.
    assert (0 < clk) as Hpos by lia.
    pose proof (round_half_up_bounds SEC210PSEC clk Hpos) as B.
    pose proof (half_bounds clk). unfold SEC210PSEC in *.
    set (T := round_half_up 100000000000 clk) in *. nia.
Qed.

(** X4. Whenever the controller computation succeeds for a kernel clock,
    the target computation succeeds for the same clock and its
    BusAvailableDuration is the controller's BusIdleDuration. *)
Theorem tgt_agrees_with_ctrl pConfig pTgt clk i3c i2c duty bus cfg :
  I3C_CtrlTimingComputation pConfig clk i3c i2c duty bus = (SUCCESS, cfg) ->
  I3C_TgtTimingComputation pTgt clk
  = (SUCCESS, {| BusAvailableDuration := BusIdleDuration cfg |}).
Proof.
  intros H.
  apply ctrl_success in H as (Hv & _ & HT0 & _ & ->).
  apply verify_parameters_success in Hv as (Hc & _).
  cbn [store_config BusIdleDuration]. rewrite locals_oneus.
  unfold I3C_TgtTimingComputation.
  apply Z.eqb_neq in Hc, HT0. rewrite Hc.
  status_step. rewrite HT0. status_step. rewrite HT0. reflexivity.
Qed.

(** X5. For a nonzero 32-bit kernel clock the target's BusAvailableDuration
    is the rounded one-microsecond count minus 2 exactly when the clock
    period lies between 389 and 66666; outside, the stored byte is what is
    left of a wrapped or truncated count. *)
Theorem tgt_bus_available_exact_iff pTgt clk :
  is_uint32 clk -> clk <> 0 ->
  BusAvailableDuration (snd (I3C_TgtTimingComputation pTgt clk))
  = round_half_up 100000 (period clk) - 2
  <-> 389 <= period clk <= 66666.
Proof.
  intros Hr Hz. unfold is_uint32 in Hr.
  rewrite tgt_nonzero by lia. cbn [snd BusAvailableDuration].
  pose proof (period_at_least_23 clk) as H23.
  pose proof (period_range clk) as RT. unfold is_uint32 in RT.
  set (T := period clk) in *.
  assert (0 < T) as HT by lia.
  pose proof (round_half_up_bounds 100000 T HT) as B.
  pose proof (half_bounds T) as Hh.
  assert (0 <= u8 (one_us T) < 256) as Hu8.
  { unfold u8. apply Z.mod_pos_bound. lia. }
  split.
  - intros E. apply period_window; lia.
  - intros Hw.
    assert (2 <= round_half_up 100000 T <= 257) as Hrr by nia.
    unfold one_us. rewrite DRC_exact by lia.
    rewrite sub32_small by lia. apply u8_small. lia.
Qed.

(** *** The SCL high time *)

Lemma sub32_1_le_255 x :
  0 <= x < 2 ^ 32 -> sub32 x 1 <= 255 -> 1 <= x <= 256 /\ sub32 x 1 = x - 1.
Proof.
  intros Hx Hle. unfold sub32 in *.
  destruct (u32_le_small (x - 1) 255) as [Hn E]; try lia.
Qed.

Lemma count_plus_1 h T :
  0 <= h <= 255 -> 389 <= T <= 66666 ->
  add32 h 1 = h + 1 /\ mul32 (add32 h 1) T = (h + 1) * T
  /\ T <= (h + 1) * T <= 2 ^ 25.
Proof.
  intros Hh HT. rewrite add32_small by lia.
  assert (T <= (h + 1) * T <= 2 ^ 25) as Hb by nia.
  rewrite mul32_small by lia. auto.
Qed.

(** On a pure bus the high count either comes from the 32 ns minimum or is
    a duty-cycle count whose high time reaches that minimum. *)
Lemma pure_high_cases T pp d :
  389 <= T <= 66666 ->
  let h := fst (scl_high_low T pp d I3C_PURE_I3C_BUS) in
  h = min_high T - 1
  \/ exists x, 0 <= x < 2 ^ 32 /\ TI3CH_MIN <= mul32 x T /\ h = sub32 x 1.
Proof.
  intros HT. cbv zeta. unfold scl_high_low.
  set (x := DRC (DRC (mul32 pp d) T) 100).
  pose proof (DRC_range (DRC (mul32 pp d) T) 100) as Hx. fold x in Hx.
  rewrite !add32_sub32_1, !(u32_small x) by lia.
  assert (0 < T) as HT' by lia.
  pose proof (half_bounds T) as Hh.
  destruct (Z.ltb_spec (mul32 x T) TI3CH_MIN) as [C | C]; cbn [fst].
  - left. unfold min_high, TI3CH_MIN.
    rewrite !(DRC_exact 3200 T) by lia.
    pose proof (round_half_up_bounds 3200 T HT') as B.
    pose proof (round_half_up_nonneg 3200 T HT') as N.
    set (y := round_half_up 3200 T) in *.
    assert (0 <= y * T < 2 ^ 32) as Hy by nia.
    assert (0 <= y < 2 ^ 32) as Hy' by nia.
    rewrite !(u32_small y), (mul32_small y T) by lia.
    destruct (Z.ltb_spec (y * T) 3200); [lia|].
    apply sub32_small. nia.
  - right. exists x. auto.
Qed.

(** On a mixed bus the high time is kept between the 32 ns minimum and less
    than one clock period above the 41 ns open-drain maximum. *)
Lemma mixed_high_bounds T pp d :
  389 <= T <= 66666 ->
  let h := fst (scl_high_low T pp d I3C_MIXED_BUS) in
  0 <= h /\ TI3CH_MIN <= (h + 1) * T /\ h * T <= TI3CH_OD_MAX.
Proof.
  intros HT. cbv zeta. unfold scl_high_low, TI3CH_MIN, TI3CH_OD_MAX.
  assert (0 < T) as HT' by lia.
  pose proof (half_bounds T) as Hh.
  rewrite !(DRC_exact 4100 T) by lia.
  pose proof (round_half_up_bounds 4100 T HT') as B.
  pose proof (round_half_up_nonneg 4100 T HT') as N.
  set (y := round_half_up 4100 T) in *.
  assert (0 <= y * T < 2 ^ 32) as Hy by nia.
  assert (0 <= y < 2 ^ 32) as Hy' by nia.
  rewrite !add32_sub32_1, !(u32_small y), !(mul32_small y T) by lia.
  destruct (Z.ltb_spec (y * T) 3200) as [C1 | C1]; cbn [fst].
  - nia.
  - destruct (Z.ltb_spec 4100 (y * T)) as [C2 | C2]; cbn [fst].
    + rewrite div32_exact by lia.
      pose proof (div_bounds 4100 T HT') as Bd.
      assert (0 <= 4100 / T) by (apply Z.div_pos; lia). nia.
    + assert (1 <= y) by nia.
      rewrite sub32_small by lia. nia.
Qed.

(** X6. On success, on either bus type, the SCL high time
    [(SCLI3CHighDuration + 1)] clock periods is at least the 32 ns minimum
    [TI3CH_MIN]. *)
Theorem scl_high_time_at_least_32ns pConfig clk i3c i2c duty bus cfg :
  I3C_CtrlTimingComputation pConfig clk i3c i2c duty bus = (SUCCESS, cfg) ->
  TI3CH_MIN <= (SCLI3CHighDuration cfg + 1) * period clk.
Proof.
  intros H. apply ctrl_success_facts in H as (-> & HT & Hb & _).
  cbn [store_config SCLI3CHighDuration].
  destruct Hb as (_ & Hh & _). rewrite u8_small by lia.
  destruct (locals_high_low (period clk) (period i3c) (period i2c) duty bus)
    as [Eh _].
  rewrite Eh in *. clear Eh.
  destruct bus.
  - destruct (pure_high_cases (period clk) (period i3c) duty HT)
      as [E | (x & Hx & Hm & E)]; rewrite E in *.
    + pose proof (min_high_bounds (period clk)) as (_ & M & _); [lia|].
      replace (min_high (period clk) - 1 + 1) with (min_high (period clk))
        by ring.
      assumption.
    + destruct (sub32_1_le_255 x Hx) as [Hx1 ->]; [lia|].
      replace (x - 1 + 1) with x by ring.
      rewrite mul32_small in Hm by nia. assumption.
  - apply mixed_high_bounds. assumption.
Qed.

(** X7. On a successful mixed-bus computation SCLI3CHighDuration clock
    periods do not exceed the 41 ns open-drain maximum [TI3CH_OD_MAX]: the
    high time, one period longer, overshoots it by less than one period. *)
Theorem mixed_high_time_ceiling pConfig clk i3c i2c duty cfg :
  I3C_CtrlTimingComputation pConfig clk i3c i2c duty I3C_MIXED_BUS
  = (SUCCESS, cfg) ->
  SCLI3CHighDuration cfg * period clk <= TI3CH_OD_MAX.
Proof.
  intros H. apply ctrl_success_facts in H as (-> & HT & Hb & _).
  cbn [store_config SCLI3CHighDuration].
  destruct Hb as (_ & Hh & _). rewrite u8_small by lia.
  destruct (locals_high_low (period clk) (period i3c) (period i2c) duty
              I3C_MIXED_BUS) as [Eh _].
  rewrite Eh. apply mixed_high_bounds. assumption.
Qed.

(** X8. On a successful pure-bus computation SCLI2CHighDuration is 0 and
    the open-drain low time [(SCLODLowDuration + 1)] clock periods is at
    least the 350 ns rise time [TCAPA]. *)
Theorem pure_bus_open_drain_low pConfig clk i3c i2c duty cfg :
  I3C_CtrlTimingComputation pConfig clk i3c i2c duty I3C_PURE_I3C_BUS
  = (SUCCESS, cfg) ->
  SCLI2CHighDuration cfg = 0
  /\ TCAPA <= (SCLODLowDuration cfg + 1) * period clk.
Proof.
  intros H. apply ctrl_success_facts in H as (-> & HT & Hb & _).
  cbn [store_config SCLI2CHighDuration SCLODLowDuration].
  destruct Hb as (_ & _ & Hod & Hh2 & _). rewrite !u8_small by lia.
  destruct (locals_od (period clk) (period i3c) (period i2c) duty
              I3C_PURE_I3C_BUS) as (Eod & Eh2 & _).
  split; [rewrite Eh2; reflexivity|].
  rewrite Eod in *. clear Eod Eh2.
  set (T := period clk) in *.
  unfold scl_od in *. cbn [fst] in *.
  set (lod1 := if period i3c <? TI3CL_OD_MIN then _ else _) in *.
  assert (0 < T) as HT' by lia.
  pose proof (half_bounds T) as Hh.
  unfold TCAPA in *.
  destruct (Z.ltb_spec (mul32 (add32 lod1 1) T) 35000) as [C | C].
  - rewrite (DRC_exact 35000 T) in * by lia.
    pose proof (round_half_up_bounds 35000 T HT') as B.
    pose proof (round_half_up_nonneg 35000 T HT') as N.
    set (y := round_half_up 35000 T) in *.
    assert (0 <= y < 2 ^ 31) as Hy by nia.
    rewrite add32_small in * by lia. nia.
  - destruct (count_plus_1 lod1 T) as (E1 & E2 & _); [lia | lia |].
    rewrite E2 in C. assumption.
Qed.

(** *** What is left of a period after one phase

    Both the push-pull low count of a mixed bus (line 205) and the I2C high
    count (line 271) are [DIV_ROUND_CLOSEST (x - m, ti3cclk) - 1], with [m]
    the time already given to the other phase. *)

Lemma DRC_remainder T x m :
  389 <= T <= 66666 -> 0 <= x < 2 ^ 32 -> T <= m <= 2 ^ 25 ->
  0 <= x - m + T / 2 /\ DRC (sub32 x m) T = (x - m + T / 2) / T
  \/ 258 <= DRC (sub32 x m) T.
Proof.
  intros HT Hx Hm. pose proof (half_bounds T) as Hh.
  unfold DIV_ROUND_CLOSEST. rewrite (div32_exact T 2) by lia.
  unfold sub32. rewrite add32_u32_l.
  pose proof (u32_range (x - m + T / 2)) as Hr.
  rewrite div32_exact by lia.
  destruct (Z_lt_le_dec (x - m + T / 2) 0) as [Hneg | Hpos].
  - right. rewrite u32_below by lia.
    apply Z.div_le_lower_bound; lia.
  - left. split; [assumption|]. rewrite u32_small by lia. reflexivity.
Qed.

Lemma remainder_count_accuracy T x m h :
  389 <= T <= 66666 -> 0 <= x < 2 ^ 32 -> T <= m <= 2 ^ 25 ->
  h = sub32 (DRC (sub32 x m) T) 1 -> h <= 255 ->
  0 <= h /\ - T < 2 * (m + (h + 1) * T - x) <= T.
Proof.
  intros HT Hx Hm -> Hle.
  pose proof (DRC_range (sub32 x m) T) as Hq.
  destruct (sub32_1_le_255 _ Hq Hle) as [Hq1 ->].
  destruct (DRC_remainder T x m HT Hx Hm) as [[Hpos E] | Hbig]; [|lia].
  rewrite E in *.
  assert (0 < T) as HT' by lia.
  pose proof (div_bounds (x - m + T / 2) T HT') as B.
  pose proof (half_bounds T) as Hh.
  set (q := (x - m + T / 2) / T) in *.
  replace (q - 1 + 1) with q by ring.
  rewrite (Z.mul_comm q T). lia.
Qed.

Lemma mixed_low_is_remainder T pp d :
  snd (scl_high_low T pp d I3C_MIXED_BUS)
  = sub32 (DRC (sub32 pp
                  (mul32 (add32 (fst (scl_high_low T pp d I3C_MIXED_BUS)) 1)
                         T)) T) 1.
Proof. reflexivity. Qed.

Lemma mixed_i2c_high_is_remainder T pp od d l :
  snd (scl_od T pp od d l I3C_MIXED_BUS)
  = sub32 (DRC (sub32 od
                  (mul32 (add32 (fst (scl_od T pp od d l I3C_MIXED_BUS)) 1)
                         T)) T) 1.
Proof. reflexivity. Qed.

(** X9. On a successful mixed-bus computation the push-pull period
    [(SCLPPLowDuration + SCLI3CHighDuration + 2)] clock periods is within
    half a clock period of the requested I3C period; no condition on the
    size of the inputs is needed. *)
Theorem mixed_push_pull_period_accuracy pConfig clk i3c i2c duty cfg :
  I3C_CtrlTimingComputation pConfig clk i3c i2c duty I3C_MIXED_BUS
  = (SUCCESS, cfg) ->
  - period clk
  < 2 * ((SCLPPLowDuration cfg + SCLI3CHighDuration cfg + 2) * period clk
         - period i3c)
  <= period clk.
Proof.
  intros H. apply ctrl_success_facts in H as (-> & HT & Hb & _).
  cbn [store_config SCLPPLowDuration SCLI3CHighDuration].
  destruct Hb as (Hl & Hh & _). rewrite !u8_small by lia.
  destruct (locals_high_low (period clk) (period i3c) (period i2c) duty
              I3C_MIXED_BUS) as [Eh El].
  rewrite Eh, El in *. clear Eh El.
  pose proof (period_range i3c) as Rp. unfold is_uint32 in Rp.
  set (T := period clk) in *. set (pp := period i3c) in *.
  pose proof (mixed_low_is_remainder T pp duty) as El0.
  set (h := fst (scl_high_low T pp duty I3C_MIXED_BUS)) in *.
  set (l0 := snd (scl_high_low T pp duty I3C_MIXED_BUS)) in *.
  destruct (count_plus_1 h T Hh HT) as (E1 & E2 & Hm).
  rewrite E2 in El0.
  pose proof (DRC_range (sub32 pp ((h + 1) * T)) T) as Hq.
  destruct (DRC_remainder T pp ((h + 1) * T) HT Rp Hm) as [[Hpos E] | Hbig].
  - (* the remainder did not wrap *)
    rewrite E in El0, Hq.
    assert (0 < T) as HT' by lia.
    pose proof (div_bounds (pp - (h + 1) * T + T / 2) T HT') as B.
    assert ((pp - (h + 1) * T + T / 2) / T
            = round_half_up pp T - (h + 1)) as EL.
    { unfold round_half_up.
      replace (pp - (h + 1) * T + T / 2)
        with (pp + T / 2 + - (h + 1) * T) by ring.
      rewrite Z.div_add by lia. ring. }
    pose proof (round_half_up_bounds pp T HT') as Bz.
    set (z := round_half_up pp T) in *.
    rewrite EL in *. clear EL.
    destruct (Z_lt_le_dec 257 (z - (h + 1))) as [Hbig | Hsmall].
    + exfalso.
      assert (257 <= l0 < 2 ^ 32 - 1) as Hl0
        by (rewrite El0, sub32_small; lia).
      pose proof (scllpp_adjust_wrapped T pp h l0 Hl0). lia.
    + assert (T * z = (z - (h + 1) + (h + 1)) * T) as Ez by ring.
      assert ((z - (h + 1) + (h + 1)) * T <= 513 * T) as Ez'
        by (apply Z.mul_le_mono_nonneg_r; lia).
      assert (scllpp_adjust T pp h l0 = u32 (z - (h + 1) - 1)) as Eadj.
      { transitivity (u32 (adjusted_low T pp (h + 1) (z - (h + 1)) - 1)).
        - rewrite <- scllpp_adjust_exact by lia.
          replace (h + 1 - 1) with h by ring.
          rewrite (u32_small h) by lia. now rewrite El0.
        - unfold z. now rewrite adjusted_low_min_high by lia. }
      rewrite Eadj in Hl |- *.
      destruct Hl as [_ Hl].
      apply u32_le_small in Hl as [Hz ->]; try lia.
      replace (z - (h + 1) - 1 + h + 2) with z by ring.
      rewrite (Z.mul_comm z T). pose proof (half_bounds T). lia.
  - (* the remainder wrapped: the count cannot pass the range test *)
    exfalso.
    assert (257 <= l0 < 2 ^ 32 - 1) as Hl0
      by (rewrite El0, sub32_small; lia).
    pose proof (scllpp_adjust_wrapped T pp h l0 Hl0). lia.
Qed.

(** X10. On a successful mixed-bus computation the I2C period
    [(SCLODLowDuration + SCLI2CHighDuration + 2)] clock periods is within
    half a clock period of the requested I2C period. *)
Theorem mixed_i2c_period_accuracy pConfig clk i3c i2c duty cfg :
  I3C_CtrlTimingComputation pConfig clk i3c i2c duty I3C_MIXED_BUS
  = (SUCCESS, cfg) ->
  - period clk
  < 2 * ((SCLODLowDuration cfg + SCLI2CHighDuration cfg + 2) * period clk
         - period i2c)
  <= period clk.
Proof.
  intros H. apply ctrl_success_facts in H as (-> & HT & Hb & _).
  cbn [store_config SCLODLowDuration SCLI2CHighDuration].
  destruct Hb as (_ & _ & Hod & Hh2 & _). rewrite !u8_small by lia.
  destruct (locals_od (period clk) (period i3c) (period i2c) duty
              I3C_MIXED_BUS) as (Eod & Eh2 & _).
  rewrite Eod, Eh2 in *. clear Eod Eh2.
  pose proof (period_range i2c) as Ro. unfold is_uint32 in Ro.
  set (T := period clk) in *. set (od := period i2c) in *.
  set (l := scllpp _) in *.
  pose proof (mixed_i2c_high_is_remainder T (period i3c) od duty l) as E.
  set (lod := fst (scl_od T (period i3c) od duty l I3C_MIXED_BUS)) in *.
  set (h2 := snd (scl_od T (period i3c) od duty l I3C_MIXED_BUS)) in *.
  destruct (count_plus_1 lod T Hod HT) as (E1 & E2 & Hm).
  rewrite E2 in E.
  destruct (remainder_count_accuracy T od ((lod + 1) * T) h2 HT Ro Hm E)
    as [_ A]; [lia|].
  replace ((lod + h2 + 2) * T) with ((lod + 1) * T + (h2 + 1) * T) by ring.
  lia.
Qed.

(** *** The open-drain low time of a mixed bus *)

Lemma od_floor_count T F s :
  389 <= T <= 66666 -> 50000 <= F <= 130000 -> 0 <= s < 2 ^ 32 ->
  let lod :=
    if mul32 (add32 (sub32 s 1) 1) T <? F
    then sub32 (DRC F T) 1 else sub32 s 1 in
  lod <= 255 -> 2 * F <= 2 * ((lod + 1) * T) + T.
Proof.
  intros HT HF Hs. cbv zeta.
  rewrite add32_sub32_1, (u32_small s) by lia.
  assert (0 < T) as HT' by lia.
  pose proof (half_bounds T) as Hh.
  destruct (Z.ltb_spec (mul32 s T) F) as [C | C].
  - rewrite DRC_exact by lia.
    pose proof (round_half_up_bounds F T HT') as B.
    set (y := round_half_up F T) in *.
    assert (1 <= y < 2 ^ 31) as Hy by nia.
    rewrite sub32_small by lia. intros _.
    replace (y - 1 + 1) with y by ring. lia.
  - intros Hle. destruct (sub32_1_le_255 s Hs Hle) as [Hs1 E].
    rewrite E. replace (s - 1 + 1) with s by ring.
    rewrite mul32_small in C by nia. lia.
Qed.

(** X11. On a successful mixed-bus computation the open-drain low time
    [(SCLODLowDuration + 1)] clock periods is at most half a clock period
    below the low-time minimum selected by the I2C period: 500 ns
    ([TFMPL_OD_MIN]) when that period is below [TFM_MIN], 1300 ns
    ([TFML_OD_MIN]) otherwise.  The minimum itself can be missed, since the
    recomputed count is rounded to the nearest. *)
Theorem mixed_open_drain_low_floor pConfig clk i3c i2c duty cfg :
  I3C_CtrlTimingComputation pConfig clk i3c i2c duty I3C_MIXED_BUS
  = (SUCCESS, cfg) ->
  2 * (if period i2c <? TFM_MIN then TFMPL_OD_MIN else TFML_OD_MIN)
  <= 2 * ((SCLODLowDuration cfg + 1) * period clk) + period clk.
Proof.
  intros H. apply ctrl_success_facts in H as (-> & HT & Hb & _).
  cbn [store_config SCLODLowDuration].
  destruct Hb as (_ & _ & Hod & _). rewrite !u8_small by lia.
  destruct (locals_od (period clk) (period i3c) (period i2c) duty
              I3C_MIXED_BUS) as (Eod & _).
  rewrite Eod in *. clear Eod.
  unfold scl_od in *. cbn [fst] in *.
  set (s := DRC (DRC (mul32 (period i2c) (sub32 100 duty)) (period clk)) 100)
    in *.
  pose proof (DRC_range
                (DRC (mul32 (period i2c) (sub32 100 duty)) (period clk)) 100)
    as Hs. fold s in Hs.
  unfold TFMPL_OD_MIN, TFML_OD_MIN in *.
  destruct (period i2c <? TFM_MIN).
  - apply (od_floor_count (period clk) 50000 s); lia.
  - apply (od_floor_count (period clk) 130000 s); lia.
Qed.

(** The 500 ns minimum is indeed missed at 48 MHz with a 1 MHz I2C clock:
    24 clock periods last 499.92 ns. *)
Example mixed_open_drain_low_below_floor :
  let r := I3C_CtrlTimingComputation blank_ctrl
             48000000 12500000 1000000 50 I3C_MIXED_BUS in
  fst r = SUCCESS
  /\ (SCLODLowDuration (snd r) + 1) * period 48000000 = 49992.
Proof.
  cbv zeta. rewrite ctrl_cases.
  assert (locals_of 48000000 12500000 1000000 50 I3C_MIXED_BUS
          = mkLocals 1 1 23 23 20 46 0) as -> by (vm_compute; reflexivity).
  split; vm_compute; reflexivity.
Qed.

(** *** The runs that divide by zero *)

Lemma period_low_not_half f : 0 < f < 24 -> period f <> 2 ^ 31.
Proof.
  intros Hf. rewrite period_quotient by lia.
  assert (f = 1 \/ f = 2 \/ f = 3 \/ f = 4 \/ f = 5 \/ f = 6 \/ f = 7 \/ f = 8
          \/ f = 9 \/ f = 10 \/ f = 11 \/ f = 12 \/ f = 13 \/ f = 14 \/ f = 15
          \/ f = 16 \/ f = 17 \/ f = 18 \/ f = 19 \/ f = 20 \/ f = 21
          \/ f = 22 \/ f = 23) as C by lia.
  repeat (destruct C as [-> | C]; [vm_compute; discriminate|]).
  subst f. vm_compute. discriminate.
Qed.

(** Twice the period of a nonzero 32-bit clock is not zero modulo 2^32:
    the divisor [2U * ti3cclk] of lines 279 and 284 is never zero. *)
Lemma twice_period_nonzero f : 0 < f < 2 ^ 32 -> mul32 2 (period f) <> 0.
Proof.
  intros Hf. pose proof (period_at_least_23 f Hf) as H23.
  pose proof (period_range f) as Hr. unfold is_uint32 in Hr.
  assert (period f <> 2 ^ 31) as Hne.
  { destruct (Z_lt_le_dec f 24) as [Hs | Hl].
    - apply period_low_not_half. lia.
    - rewrite period_exact by lia.
      assert (0 < f) as Hpos by lia.
      pose proof (round_half_up_bounds SEC210PSEC f Hpos) as B.
      pose proof (half_bounds f). unfold SEC210PSEC in *.
      intros E. rewrite E in B.
      destruct (Z_lt_le_dec f 47); lia. }
  unfold mul32. destruct (Z_lt_le_dec (period f) (2 ^ 31)) as [Hs | Hl].
  - rewrite u32_small by lia. lia.
  - replace (2 * period f) with (2 * period f - 2 ^ 32 + 1 * 2 ^ 32) by ring.
    unfold u32. rewrite Z_mod_plus_full.
    rewrite Z.mod_small by lia. lia.
Qed.

(** For a 32-bit kernel clock, the runs that divide by zero are exactly the
    pure-bus runs with a zero I2C clock that pass the parameter and the
    duty-cycle tests: the division by [i2cFreq] of line 142. *)
Theorem divides_by_zero_iff clk i3c i2c duty bus :
  is_uint32 clk ->
  divides_by_zero clk i3c i2c duty bus = true
  <-> bus = I3C_PURE_I3C_BUS /\ clk <> 0 /\ i3c <> 0 /\ i2c = 0
      /\ duty <= 50.
Proof.
  intros Hr. unfold is_uint32 in Hr. unfold divides_by_zero.
  destruct (verify_parameters clk i3c i2c bus) eqn:Ev; cbn [is_success].
  - apply verify_parameters_success in Ev as (Hc & Hi3 & Hi2).
    pose proof (period_at_least_23 clk) as H23.
    pose proof (twice_period_nonzero clk) as H2T.
    apply Z.eqb_neq in Hc as Ec. apply Z.eqb_neq in Hi3 as Ei3.
    rewrite Ec, Ei3. cbv zeta. cbn [orb].
    assert ((period clk =? 0) = false) as -> by (apply Z.eqb_neq; lia).
    assert ((mul32 2 (period clk) =? 0) = false) as ->
      by (apply Z.eqb_neq; apply H2T; lia).
    rewrite orb_false_r.
    destruct (Z.ltb_spec 50 duty) as [Hd | Hd].
    + split; [discriminate | lia].
    + destruct bus; cbn [is_pure negb andb].
      * rewrite orb_false_r. rewrite Z.eqb_eq. intuition lia.
      * assert ((i2c =? 0) = false) as ->
          by (apply Z.eqb_neq; auto).
        cbn [orb]. destruct (TSM_MIN <? period i2c);
          split; intros H; try discriminate H;
          destruct H as (H & _); discriminate H.
  - split; [discriminate|].
    intros (-> & Hc & Hi3 & -> & _). exfalso.
    unfold verify_parameters in Ev.
    apply Z.eqb_neq in Hc, Hi3. rewrite Hc, Hi3 in Ev.
    cbn in Ev. discriminate Ev.
Qed.

End Util_I3C.

(** ** The quotient of a division by zero is never used by a defined run

    [I3C_CtrlTimingComputation_run] and [I3C_TgtTimingComputation] do not
    depend on what a division by zero would leave: a run that reaches a zero
    divisor has no result, and the other runs do not consult [udiv0]. *)

Section Quotient_independence.

Variables u u' : Z -> Z.
Variable pos : Z.

Lemma udiv_indep x d : d <> 0 -> udiv u x d = udiv u' x d.
Proof. intros H. unfold udiv. now apply Z.eqb_neq in H as ->. Qed.

Lemma div32_indep x d : d <> 0 -> div32 u x d = div32 u' x d.
Proof. intros H. unfold div32. now rewrite (udiv_indep x d H). Qed.

Lemma div64_indep x d : d <> 0 -> div64 u x d = div64 u' x d.
Proof. intros H. unfold div64. now rewrite (udiv_indep x d H). Qed.

Lemma DRC_indep x d :
  d <> 0 -> DIV_ROUND_CLOSEST u x d = DIV_ROUND_CLOSEST u' x d.
Proof.
  intros H. unfold DIV_ROUND_CLOSEST.
  rewrite (div32_indep d 2) by discriminate. now apply div32_indep.
Qed.

Lemma period_indep f : f <> 0 -> period_10ps u f = period_10ps u' f.
Proof.
  intros H. unfold period_10ps.
  rewrite (div64_indep f 2) by discriminate. now rewrite div64_indep.
Qed.

Lemma scl_high_low_indep T pp d bus :
  T <> 0 -> scl_high_low u T pp d bus = scl_high_low u' T pp d bus.
Proof.
  intros HT. unfold scl_high_low.
  assert (100 <> 0) as H100 by discriminate.
  rewrite !(fun x => DRC_indep x T HT), !(fun x => DRC_indep x 100 H100).
  rewrite !(fun x => div32_indep x T HT). reflexivity.
Qed.

Lemma scllpp_adjust_indep T pp h l :
  scllpp_adjust u T pp h l = scllpp_adjust u' T pp h l.
Proof.
  unfold scllpp_adjust. rewrite !(div32_indep T 2) by discriminate.
  reflexivity.
Qed.

Lemma scl_od_indep T pp od d l bus :
  T <> 0 -> scl_od u T pp od d l bus = scl_od u' T pp od d l bus.
Proof.
  intros HT. unfold scl_od.
  assert (100 <> 0) as H100 by discriminate.
  rewrite !(fun x => DRC_indep x T HT), !(fun x => DRC_indep x 100 H100).
  reflexivity.
Qed.

Lemma bus_free_indep T lod bus :
  mul32 2 T <> 0 -> bus_free u T lod bus = bus_free u' T lod bus.
Proof.
  intros H2T. unfold bus_free.
  rewrite !(fun x => DRC_indep x (mul32 2 T) H2T). reflexivity.
Qed.

Lemma one_us_indep T : T <> 0 -> one_us u T = one_us u' T.
Proof. intros HT. unfold one_us. now rewrite (DRC_indep 100000 T HT). Qed.

Lemma scl_computation_indep T pp od d bus :
  T <> 0 -> mul32 2 T <> 0 ->
  scl_computation u T pp od d bus = scl_computation u' T pp od d bus.
Proof.
  intros HT H2T. unfold scl_computation.
  rewrite (scl_high_low_indep T pp d bus HT).
  destruct (scl_high_low u' T pp d bus) as [h l].
  rewrite scllpp_adjust_indep, (scl_od_indep T pp od d _ bus HT).
  destruct (scl_od u' T pp od d _ bus) as [lod h2].
  now rewrite (bus_free_indep T lod bus H2T), (one_us_indep T HT).
Qed.

Theorem ctrl_run_independent_of_quotient pConfig clk i3c i2c duty bus :
  I3C_CtrlTimingComputation_run u pos pConfig clk i3c i2c duty bus
  = I3C_CtrlTimingComputation_run u' pos pConfig clk i3c i2c duty bus.
Proof.
  unfold I3C_CtrlTimingComputation_run, divides_by_zero.
  rewrite !ctrl_cases.
  destruct (verify_parameters clk i3c i2c bus); cbn [is_success andb];
    [|reflexivity].
  destruct (Z.eqb_spec clk 0) as [Ec | Hc]; cbn [orb]; [reflexivity|].
  rewrite (period_indep clk Hc). cbv zeta.
  destruct (50 <? duty); cbn [orb negb andb]; [reflexivity|].
  destruct (Z.eqb_spec (period_10ps u' clk) 0) as [ET | HT];
    cbn [negb andb]; [reflexivity|].
  destruct (Z.eqb_spec i3c 0) as [E3 | H3]; cbn [orb]; [reflexivity|].
  destruct (Z.eqb_spec i2c 0) as [E2 | H2]; cbn [orb]; [reflexivity|].
  rewrite (period_indep i3c H3), (period_indep i2c H2).
  destruct (negb (is_pure bus) && (TSM_MIN <? period_10ps u' i2c));
    cbn [negb andb]; [reflexivity|].
  destruct (Z.eqb_spec (mul32 2 (period_10ps u' clk)) 0) as [E2T | H2T];
    [reflexivity|].
  now rewrite (scl_computation_indep _ _ _ duty bus HT H2T).
Qed.

Theorem tgt_independent_of_quotient pTgt clk :
  I3C_TgtTimingComputation u pTgt clk = I3C_TgtTimingComputation u' pTgt clk.
Proof.
  unfold I3C_TgtTimingComputation.
  destruct (Z.eqb_spec clk 0) as [Ec | Hc]; [reflexivity|].
  cbv beta iota zeta delta [is_success].
  rewrite (period_indep clk Hc).
  destruct (Z.eqb_spec (period_10ps u' clk) 0) as [ET | HT].
  - reflexivity.
  - cbv beta iota zeta delta [is_success andb negb].
    destruct (Z.eqb_spec (period_10ps u' clk) 0) as [ET' | _]; [contradiction|].
    now rewrite (one_us_indep _ HT).
Qed.

End Quotient_independence.

(** ** Instances

    The statements above at concrete inputs, with the SDA_HD flag at bit 28
    of TIMINGR1. *)

Lemma period_of_nonzero_clock_is_nonzero_48MHz :
  23 <= period_10ps div0_zero 48000000
  /\ (period_10ps div0_zero 48000000 =? 0) = false
  /\ (forall duty,
        (50 <? duty) || (period_10ps div0_zero 48000000 =? 0) = (50 <? duty))
  /\ (forall pTgt,
        fst (I3C_TgtTimingComputation div0_zero pTgt 48000000) = SUCCESS).
Proof.
  apply (period_of_nonzero_clock_is_nonzero div0_zero 48000000).
  - unfold is_uint32. lia.
  - lia.
Defined.

Lemma duty_cycle_60_is_error :
  I3C_CtrlTimingComputation div0_ones 28 blank_ctrl
    48000000 12500000 0 60 I3C_PURE_I3C_BUS
  = (ERROR, blank_ctrl).
Proof. apply duty_cycle_above_50_is_error. lia. Defined.

(** C3 as first stated fails at 1 Hz: the quotient 10^11 does not fit in 32
    bits and the period is 1215752192. *)
Lemma period_1Hz_truncated :
  is_uint32 1 /\ 1 <> 0
  /\ period_10ps div0_zero 1 = 1215752192
  /\ (10 ^ 11 + 1 / 2) / 1 = 10 ^ 11
  /\ period_10ps div0_zero 1 <> (10 ^ 11 + 1 / 2) / 1.
Proof.
  unfold is_uint32. repeat split; try lia; try (vm_compute; reflexivity).
  vm_compute. discriminate.
Qed.

Lemma period_is_rounded_quotient_48MHz :
  period_10ps div0_zero 48000000 = u32 (round_half_up (10 ^ 11) 48000000)
  /\ (24 <= 48000000 ->
      period_10ps div0_zero 48000000 = round_half_up (10 ^ 11) 48000000
      /\ round_half_up (10 ^ 11) 48000000
         = (10 ^ 11 + 48000000 / 2) / 48000000).
Proof.
  apply (period_is_rounded_quotient div0_zero 48000000).
  - unfold is_uint32. lia.
  - lia.
Defined.

(** C2 as first stated fails at 48 MHz (12.5 MHz bus, 1 MHz I2C clock, pure
    bus): the run reaches no division by zero and succeeds with a period of
    2083 and BusIdleDuration 46, while the round-half-up quotient of
    10000000 by 2083, minus 2, is 4799. *)
Lemma bus_idle_duration_is_not_from_10000000 :
  let r := I3C_CtrlTimingComputation div0_zero 28 blank_ctrl
             48000000 12500000 1000000 50 I3C_PURE_I3C_BUS in
  I3C_CtrlTimingComputation_run div0_zero 28 blank_ctrl
    48000000 12500000 1000000 50 I3C_PURE_I3C_BUS = Some r
  /\ fst r = SUCCESS
  /\ period_10ps div0_zero 48000000 = 2083
  /\ BusIdleDuration (snd r) = 46
  /\ round_half_up 10000000 (period_10ps div0_zero 48000000) - 2 = 4799
  /\ BusIdleDuration (snd r)
     <> round_half_up 10000000 (period_10ps div0_zero 48000000) - 2.
Proof.
  cbv zeta. repeat split; try (vm_compute; reflexivity).
  vm_compute. discriminate.
Qed.

Lemma bus_idle_duration_48MHz :
  BusIdleDuration
    {| SDAHoldTime := 0;
       SCLPPLowDuration := 1;
       SCLI3CHighDuration := 1;
       SCLODLowDuration := 18;
       SCLI2CHighDuration := 0;
       BusFreeDuration := 10;
       BusIdleDuration := 46 |}
  = round_half_up 100000 (period_10ps div0_zero 48000000) - 2.
Proof.
  apply (bus_idle_duration_on_success div0_zero 28 blank_ctrl
           48000000 12500000 1000000 50 I3C_PURE_I3C_BUS).
  vm_compute. reflexivity.
Defined.

Lemma sda_hold_time_48MHz :
  (sda_hold (period_10ps div0_zero 48000000) = 0
   <-> 600 < period_10ps div0_zero 48000000)
  /\ (sda_hold (period_10ps div0_zero 48000000) = 1
      <-> period_10ps div0_zero 48000000 <= 600)
  /\ SDAHoldTime
       {| SDAHoldTime := 0;
          SCLPPLowDuration := 1;
          SCLI3CHighDuration := 1;
          SCLODLowDuration := 18;
          SCLI2CHighDuration := 0;
          BusFreeDuration := 10;
          BusIdleDuration := 46 |}
     = Z.shiftl (sda_hold (period_10ps div0_zero 48000000)) 28.
Proof.
  apply (sda_hold_time_on_success div0_zero 28 blank_ctrl
           48000000 12500000 1000000 50 I3C_PURE_I3C_BUS).
  - lia.
  - vm_compute. reflexivity.
Defined.

Lemma push_pull_period_accuracy_48MHz :
  Z.abs ((1 + 1 + 2) * period_10ps div0_zero 48000000
         - period_10ps div0_zero 12500000)
  < period_10ps div0_zero 48000000.
Proof.
  apply (push_pull_period_accuracy div0_zero 28 blank_ctrl
           48000000 12500000 1000000 50
           {| SDAHoldTime := 0;
              SCLPPLowDuration := 1;
              SCLI3CHighDuration := 1;
              SCLODLowDuration := 18;
              SCLI2CHighDuration := 0;
              BusFreeDuration := 10;
              BusIdleDuration := 46 |}).
  - lia.
  - vm_compute. reflexivity.
  - vm_compute. reflexivity.
Defined.

(** C5 as first stated fails for SDAHoldTime: at 250 MHz (12.5 MHz bus,
    1 MHz I2C clock, pure bus) the period is 400, the run succeeds and the
    field holds the flag at bit 28, 268435456. *)
Lemma sda_hold_time_is_not_a_byte :
  I3C_CtrlTimingComputation_run div0_zero 28 blank_ctrl
    250000000 12500000 1000000 50 I3C_PURE_I3C_BUS
  = Some (SUCCESS, mkCtrlBusConf 268435456 9 9 89 0 50 248)
  /\ period_10ps div0_zero 250000000 = 400
  /\ ~ 0 <= SDAHoldTime (mkCtrlBusConf 268435456 9 9 89 0 50 248) <= 255.
Proof.
  repeat split; try (vm_compute; reflexivity).
  cbn [SDAHoldTime]. lia.
Qed.

Lemma range_gate_of_run_250MHz :
  (SCLPPLowDuration (mkCtrlBusConf 268435456 9 9 89 0 50 248)
   = scllpp (scl_computation div0_zero
               (period_10ps div0_zero 250000000)
               (period_10ps div0_zero 12500000)
               (period_10ps div0_zero 1000000) 50 I3C_PURE_I3C_BUS)
   /\ 0 <= SCLPPLowDuration (mkCtrlBusConf 268435456 9 9 89 0 50 248)
      <= 255)
  /\ (SDAHoldTime (mkCtrlBusConf 268435456 9 9 89 0 50 248) = 0
      \/ SDAHoldTime (mkCtrlBusConf 268435456 9 9 89 0 50 248)
         = u32 (Z.shiftl 1 28)).
Proof.
  pose proof (range_gate_of_run div0_zero 28 blank_ctrl
                250000000 12500000 1000000 50 I3C_PURE_I3C_BUS
                (SUCCESS, mkCtrlBusConf 268435456 9 9 89 0 50 248)) as G.
  cbv zeta in G.
  assert (I3C_CtrlTimingComputation_run div0_zero 28 blank_ctrl
            250000000 12500000 1000000 50 I3C_PURE_I3C_BUS
          = Some (SUCCESS, mkCtrlBusConf 268435456 9 9 89 0 50 248)) as E
    by (vm_compute; reflexivity).
  destruct (G E) as (_ & _ & G3).
  specialize (G3 eq_refl). cbn [snd] in G3.
  split; [apply G3|]. apply G3.
Defined.

Lemma mixed_bus_i2c_50kHz_is_error :
  I3C_CtrlTimingComputation div0_zero 28 blank_ctrl
    48000000 12500000 50000 50 I3C_MIXED_BUS
  = (ERROR, blank_ctrl).
Proof. apply mixed_bus_i2c_below_100kHz_is_error. lia. Defined.

Lemma ctrl_success_clock_window_48MHz :
  389 <= period_10ps div0_zero 48000000 <= 66666
  /\ 1500004 <= 48000000 <= 257400257.
Proof.
  apply (ctrl_success_clock_window div0_zero 28 blank_ctrl
           48000000 12500000 1000000 50 I3C_PURE_I3C_BUS
           (mkCtrlBusConf 0 1 1 18 0 10 46)).
  - unfold is_uint32. lia.
  - vm_compute. reflexivity.
Defined.

Lemma tgt_agrees_with_ctrl_48MHz :
  I3C_TgtTimingComputation div0_zero (mkTgtBusConf 0) 48000000
  = (SUCCESS,
     {| BusAvailableDuration :=
          BusIdleDuration (mkCtrlBusConf 0 1 1 18 0 10 46) |}).
Proof.
  apply (tgt_agrees_with_ctrl div0_zero 28 blank_ctrl (mkTgtBusConf 0)
           48000000 12500000 1000000 50 I3C_PURE_I3C_BUS).
  vm_compute. reflexivity.
Defined.

Lemma tgt_bus_available_exact_iff_48MHz :
  BusAvailableDuration
    (snd (I3C_TgtTimingComputation div0_zero (mkTgtBusConf 0) 48000000))
  = round_half_up 100000 (period_10ps div0_zero 48000000) - 2
  <-> 389 <= period_10ps div0_zero 48000000 <= 66666.
Proof.
  apply (tgt_bus_available_exact_iff div0_zero (mkTgtBusConf 0) 48000000).
  - unfold is_uint32. lia.
  - lia.
Defined.

Lemma scl_high_time_at_least_32ns_48MHz :
  TI3CH_MIN
  <= (SCLI3CHighDuration (mkCtrlBusConf 0 1 1 18 0 10 46) + 1)
     * period_10ps div0_zero 48000000.
Proof.
  apply (scl_high_time_at_least_32ns div0_zero 28 blank_ctrl
           48000000 12500000 1000000 50 I3C_PURE_I3C_BUS).
  vm_compute. reflexivity.
Defined.

Lemma pure_bus_open_drain_low_48MHz :
  SCLI2CHighDuration (mkCtrlBusConf 0 1 1 18 0 10 46) = 0
  /\ TCAPA
     <= (SCLODLowDuration (mkCtrlBusConf 0 1 1 18 0 10 46) + 1)
        * period_10ps div0_zero 48000000.
Proof.
  apply (pure_bus_open_drain_low div0_zero 28 blank_ctrl
           48000000 12500000 1000000 50).
  vm_compute. reflexivity.
Defined.

Lemma mixed_high_time_ceiling_48MHz :
  SCLI3CHighDuration (mkCtrlBusConf 0 1 1 23 23 20 46)
  * period_10ps div0_zero 48000000 <= TI3CH_OD_MAX.
Proof.
  apply (mixed_high_time_ceiling div0_zero 28 blank_ctrl
           48000000 12500000 1000000 50).
  vm_compute. reflexivity.
Defined.

Lemma mixed_push_pull_period_accuracy_48MHz :
  - period_10ps div0_zero 48000000
  < 2 * ((SCLPPLowDuration (mkCtrlBusConf 0 1 1 23 23 20 46)
          + SCLI3CHighDuration (mkCtrlBusConf 0 1 1 23 23 20 46) + 2)
         * period_10ps div0_zero 48000000
         - period_10ps div0_zero 12500000)
  <= period_10ps div0_zero 48000000.
Proof.
  apply (mixed_push_pull_period_accuracy div0_zero 28 blank_ctrl
           48000000 12500000 1000000 50).
  vm_compute. reflexivity.
Defined.

Lemma mixed_i2c_period_accuracy_48MHz :
  - period_10ps div0_zero 48000000
  < 2 * ((SCLODLowDuration (mkCtrlBusConf 0 1 1 23 23 20 46)
          + SCLI2CHighDuration (mkCtrlBusConf 0 1 1 23 23 20 46) + 2)
         * period_10ps div0_zero 48000000
         - period_10ps div0_zero 1000000)
  <= period_10ps div0_zero 48000000.
Proof.
  apply (mixed_i2c_period_accuracy div0_zero 28 blank_ctrl
           48000000 12500000 1000000 50).
  vm_compute. reflexivity.
Defined.

Lemma mixed_open_drain_low_floor_48MHz :
  2 * (if period_10ps div0_zero 1000000 <? TFM_MIN
       then TFMPL_OD_MIN else TFML_OD_MIN)
  <= 2 * ((SCLODLowDuration (mkCtrlBusConf 0 1 1 23 23 20 46) + 1)
          * period_10ps div0_zero 48000000)
     + period_10ps div0_zero 48000000.
Proof.
  apply (mixed_open_drain_low_floor div0_zero 28 blank_ctrl
           48000000 12500000 1000000 50).
  vm_compute. reflexivity.
Defined.

Lemma push_pull_period_accuracy_from_2400Hz_48MHz :
  Z.abs ((SCLPPLowDuration (mkCtrlBusConf 0 1 1 18 0 10 46)
          + SCLI3CHighDuration (mkCtrlBusConf 0 1 1 18 0 10 46) + 2)
         * period_10ps div0_zero 48000000
         - period_10ps div0_zero 12500000)
  < period_10ps div0_zero 48000000.
Proof.
  apply (push_pull_period_accuracy_from_2400Hz div0_zero 28 blank_ctrl
           48000000 12500000 1000000 50).
  - lia.
  - lia.
  - vm_compute. reflexivity.
Defined.
